(** * Membership dues estimator: carts, enrollment resolver, benefit resolver

    A shallow embedding of the pricing core of [src/index.ts]: the catalog
    ([items], [discounts]), the [Cart] class, [getCarts] and [getBenefits].

    Conventions of the embedding.
    - The catalog holds its prices and amounts as exact rationals ([Q]);
      every one of them is a small integer.  [getTotal] computes on these
      rationals: signs, zero tests and totals that are exact on doubles are
      read from it.  [getTotalDouble] is the same method on IEEE binary64
      numbers, as the source runs; what is said of the value of a total
      with percentage discounts is said of it.
    - A league count of the selection is an integer ([Z]); the loop
      [for (i = 0; i < n; ++i)] runs [Z.to_nat n] times, so not at all for
      a negative [n].
    - The [Cart] object is mutated in place by the source; here every
      method that mutates takes the cart and returns the new one.
    - [leagueOrder] is a local array consumed with [shift()]; here the
      remaining array is threaded through the two league loops. *)

From Stdlib Require Import List String Ascii Bool ZArith QArith Lia.
From Stdlib Require Import DecimalString Lqa.
From Stdlib Require Import Floats.PrimFloat.
Import ListNotations.

Local Open Scope string_scope.
Local Open Scope list_scope.

(** ** Catalog *)

Inductive DiscountType := family | student | reciprocal | winterOnly.

Inductive DiscountStrategy := absolute | percentage.

Inductive ItemType :=
| membership
| firstLeague
| secondLeague
| thirdLeague
| additionalLeague
| basicIce
| basicIceReduced
| social.

Record Sku := mkSku { name : string; cost : Q }.

(** The field [name] of a [Discount] is [dname] here, the two records
    sharing one name space. *)

Record Discount := mkDiscount {
  dname : string;
  discountStrategy : DiscountStrategy;
  discountAmount : Q
}.

Definition items (k : ItemType) : Sku :=
  match k with
  | membership => mkSku "2022-2023 annual base membership" 135
  | firstLeague => mkSku "First league" 155
  | secondLeague => mkSku "Second league" 155
  | thirdLeague => mkSku "Third league" 155
  | additionalLeague => mkSku "Additional league" 55
  | basicIce =>
      mkSku "Basic ice privileges (unlimited sparing and daytime leagues)" 115
  | basicIceReduced =>
      mkSku "Basic ice privileges (unlimited sparing and daytime leagues)" 55
  | social => mkSku "Social membership (no dues)" 50
  end.

Definition discounts (k : DiscountType) : Discount :=
  match k with
  | family => mkDiscount "Family discount" percentage 5
  | student => mkDiscount "Student discount" percentage 30
  | reciprocal => mkDiscount "Reciprocal member discount" absolute 75
  | winterOnly => mkDiscount "Winter-only discount" absolute 35
  end.

(** The keys of the [benefits] table; [getBenefits] returns keys only.  The
    key [social] is [bSocial] here, [social] being an item kind. *)
Inductive Benefit :=
| roster | nameTag | bSocial | agm | bartending | dues | voting
| buildingAccess | ice | daytime | sparing | training | rentals
| clubSpiel | leagues | none.

Definition discountTypeSortValues (s : DiscountStrategy) : Z :=
  match s with
  | absolute => 1
  | percentage => 2
  end%Z.

(** ** JavaScript library functions used by the source *)

(** [s.includes(sub)]: [sub] occurs in [s] as a contiguous substring. *)
Fixpoint includes (s sub : string) : bool :=
  if String.prefix sub s then true
  else match s with
       | EmptyString => false
       | String _ s' => includes s' sub
       end.

(** [Array.prototype.sort(cmp)] is a stable sort (ECMAScript 2019): elements
    that compare equal keep their relative order.  For a comparator that is
    a difference of keys the result is the one of any stable sort; insertion
    from the right, placing an element before the first one it does not
    exceed, is such a sort. *)
Section Sort.
Context {A : Type} (cmp : A -> A -> Z).

Fixpoint sort_insert (x : A) (l : list A) : list A :=
  match l with
  | [] => [x]
  | y :: l' => if (cmp x y <=? 0)%Z then x :: y :: l' else y :: sort_insert x l'
  end.

Definition sort (l : list A) : list A := fold_right sort_insert [] l.
End Sort.

(** [arr.shift()]: the first element, if any, and the array left. *)
Definition shift {A : Type} (l : list A) : option A * list A :=
  match l with
  | [] => (None, [])
  | x :: l' => (Some x, l')
  end.

(** [x ?? d] *)
Definition nullish {A : Type} (x : option A) (d : A) : A :=
  match x with
  | Some v => v
  | None => d
  end.

(** ** Cart *)

Record Cart := mkCart {
  cartItems : list Sku;
  cartDiscounts : list Discount
}.

Definition newCart : Cart := mkCart [] [].

Definition addItem (k : ItemType) (c : Cart) : Cart :=
  mkCart (cartItems c ++ [items k]) (cartDiscounts c).

Definition compareDiscounts (a b : Discount) : Z :=
  (discountTypeSortValues (discountStrategy a) -
   discountTypeSortValues (discountStrategy b))%Z.

Definition addDiscount (k : DiscountType) (c : Cart) : Cart :=
  mkCart (cartItems c) (sort compareDiscounts (cartDiscounts c ++ [discounts k])).

Definition hasItem (k : ItemType) (c : Cart) : bool :=
  match find (fun i => String.eqb (name i) (name (items k))) (cartItems c) with
  | Some _ => true
  | None => false
  end.

Definition isLeague (i : Sku) : bool :=
  includes (name i) "league" && negb (includes (name i) "daytime").

Definition getLeagueCount (c : Cart) : nat :=
  List.length (filter isLeague (cartItems c)).

Definition applyDiscount (grandTotal : Q) (d : Discount) : Q :=
  match discountStrategy d with
  | absolute => grandTotal - discountAmount d
  | percentage => grandTotal * (1 - discountAmount d / 100)
  end.

Definition getTotal (c : Cart) : Q :=
  let itemTotal := fold_left (fun p i => cost i + p) (cartItems c) 0 in
  fold_left applyDiscount (cartDiscounts c) itemTotal.

(** [getItems] and [getDiscounts] return deep copies of the two arrays. *)
Definition getItems (c : Cart) : list Sku := cartItems c.
Definition getDiscounts (c : Cart) : list Discount := cartDiscounts c.

(** *** The total on doubles

    The numbers of the source are IEEE binary64.  An integer below 2^53 is
    a double, and so is every number of the catalog: [toDouble] builds it
    from the binary digits, each step being exact. *)

Fixpoint positiveToDouble (p : positive) : float :=
  match p with
  | xH => 1
  | xO p' => 2 * positiveToDouble p'
  | xI p' => 2 * positiveToDouble p' + 1
  end%float.

Definition toDouble (q : Q) : float :=
  (match Qnum q with
   | Z0 => 0
   | Zpos p => positiveToDouble p
   | Zneg p => - positiveToDouble p
   end / positiveToDouble (Qden q))%float.

Definition applyDiscountDouble (grandTotal : float) (d : Discount) : float :=
  match discountStrategy d with
  | absolute => grandTotal - toDouble (discountAmount d)
  | percentage => grandTotal * (1 - toDouble (discountAmount d) / 100)
  end%float.

(** [getTotal], every operation being the one of binary64. *)
Definition getTotalDouble (c : Cart) : float :=
  let itemTotal :=
    fold_left (fun p i => (toDouble (cost i) + p)%float) (cartItems c) 0%float in
  fold_left applyDiscountDouble (cartDiscounts c) itemTotal.

(** ** Enrollment resolver *)

Inductive SocialType := sDues | sNoDues.

(** [discount] has type [Exclude<DiscountType, "winterOnly">] in the source;
    the resolver only compares it with the three other kinds, so the wider
    type changes nothing. *)
Record GetCostParams := mkParams {
  fallRegularLeagues : Z;
  fallDayLeagues : bool;
  fallSpareOnly : bool;
  fallSocial : option SocialType;
  winterRegularLeagues : Z;
  winterDayLeagues : bool;
  winterSpareOnly : bool;
  winterSocial : option SocialType;
  discount : option DiscountType
}.

Definition isSocial (x : option SocialType) (t : SocialType) : bool :=
  match x, t with
  | Some sDues, sDues => true
  | Some sNoDues, sNoDues => true
  | _, _ => false
  end.

Definition isDiscount (x : option DiscountType) (t : DiscountType) : bool :=
  match x, t with
  | Some family, family => true
  | Some student, student => true
  | Some reciprocal, reciprocal => true
  | Some winterOnly, winterOnly => true
  | _, _ => false
  end.

(** The loop [for (i = 0; i < n; ++i) cart.addItem(leagueOrder.shift() ??
    "additionalLeague")], with the array and the cart as state. *)
Fixpoint addLeagues (n : nat) (leagueOrder : list ItemType) (c : Cart)
  : list ItemType * Cart :=
  match n with
  | O => (leagueOrder, c)
  | S n' =>
      let (x, leagueOrder') := shift leagueOrder in
      addLeagues n' leagueOrder' (addItem (nullish x additionalLeague) c)
  end.

Record Carts := mkCarts { fall : Cart; winter : Cart }.

Definition getCarts (params : GetCostParams) : Carts :=
  let leagueOrder := [firstLeague; secondLeague; thirdLeague] in
  let fallCart := newCart in
  let winterCart := newCart in
  (* == Fall == *)
  let fallCart :=
    if fallDayLeagues params || fallSpareOnly params
       || (0 <? fallRegularLeagues params)%Z
       || isSocial (fallSocial params) sDues
    then addItem membership fallCart else fallCart in
  let (leagueOrder, fallCart) :=
    addLeagues (Z.to_nat (fallRegularLeagues params)) leagueOrder fallCart in
  let fallCart :=
    if (fallRegularLeagues params =? 0)%Z then
      if fallDayLeagues params || fallSpareOnly params
      then addItem basicIce fallCart
      else if isSocial (fallSocial params) sNoDues
           then addItem social fallCart else fallCart
    else fallCart in
  let fallCart :=
    if (0 <? List.length (getItems fallCart))%nat && hasItem membership fallCart then
      let fallCart :=
        if isDiscount (discount params) reciprocal
           && (0 <? getLeagueCount fallCart)%nat
        then addDiscount reciprocal fallCart else fallCart in
      if isDiscount (discount params) family then addDiscount family fallCart
      else if isDiscount (discount params) student
           then addDiscount student fallCart else fallCart
    else fallCart in
  (* == Winter == *)
  let winterCart :=
    if negb (hasItem membership fallCart) then
      if winterDayLeagues params || winterSpareOnly params
         || (0 <? winterRegularLeagues params)%Z
         || isSocial (winterSocial params) sDues
      then addDiscount winterOnly (addItem membership winterCart)
      else winterCart
    else winterCart in
  let (leagueOrder, winterCart) :=
    addLeagues (Z.to_nat (winterRegularLeagues params)) leagueOrder winterCart in
  let winterCart :=
    if (winterRegularLeagues params =? 0)%Z then
      if winterDayLeagues params || winterSpareOnly params then
        if (3 <=? getLeagueCount fallCart)%nat
        then addItem basicIceReduced winterCart
        else addItem basicIce winterCart
      else if isSocial (winterSocial params) sNoDues
              && negb (hasItem social fallCart)
              && negb (hasItem membership fallCart)
           then addItem social winterCart else winterCart
    else winterCart in
  let winterCart :=
    if (0 <? List.length (getItems winterCart))%nat then
      let winterCart :=
        if isDiscount (discount params) reciprocal
           && hasItem membership winterCart
           && negb (hasItem membership fallCart)
           && (0 <? getLeagueCount winterCart)%nat
        then addDiscount reciprocal winterCart else winterCart in
      if isDiscount (discount params) family then addDiscount family winterCart
      else if isDiscount (discount params) student
           then addDiscount student winterCart else winterCart
    else winterCart in
  mkCarts fallCart winterCart.

(** *** The blocks of [getCarts]

    The same statements, one definition per commented block of the source;
    [getCarts_blocks] below shows that [getCarts] is their composition. *)

Definition wantsFall (params : GetCostParams) : bool :=
  fallDayLeagues params || fallSpareOnly params
  || (0 <? fallRegularLeagues params)%Z
  || isSocial (fallSocial params) sDues.

Definition wantsWinter (params : GetCostParams) : bool :=
  winterDayLeagues params || winterSpareOnly params
  || (0 <? winterRegularLeagues params)%Z
  || isSocial (winterSocial params) sDues.

(** Fall: base membership, regular leagues, basic ice or social. *)
Definition fallItems (params : GetCostParams) (leagueOrder : list ItemType)
  : list ItemType * Cart :=
  let fallCart :=
    if wantsFall params then addItem membership newCart else newCart in
  let (leagueOrder, fallCart) :=
    addLeagues (Z.to_nat (fallRegularLeagues params)) leagueOrder fallCart in
  let fallCart :=
    if (fallRegularLeagues params =? 0)%Z then
      if fallDayLeagues params || fallSpareOnly params
      then addItem basicIce fallCart
      else if isSocial (fallSocial params) sNoDues
           then addItem social fallCart else fallCart
    else fallCart in
  (leagueOrder, fallCart).

(** The family / student chain that ends both discount blocks. *)
Definition addSelected (params : GetCostParams) (c : Cart) : Cart :=
  if isDiscount (discount params) family then addDiscount family c
  else if isDiscount (discount params) student
       then addDiscount student c else c.

(** Fall: discounts. *)
Definition fallDiscounts (params : GetCostParams) (fallCart : Cart) : Cart :=
  if (0 <? List.length (getItems fallCart))%nat && hasItem membership fallCart then
    let fallCart :=
      if isDiscount (discount params) reciprocal
         && (0 <? getLeagueCount fallCart)%nat
      then addDiscount reciprocal fallCart else fallCart in
    addSelected params fallCart
  else fallCart.

(** Winter: base membership, regular leagues, basic ice or social. *)
Definition winterItems (params : GetCostParams) (fallCart : Cart)
    (leagueOrder : list ItemType) : list ItemType * Cart :=
  let winterCart :=
    if negb (hasItem membership fallCart) then
      if wantsWinter params
      then addDiscount winterOnly (addItem membership newCart)
      else newCart
    else newCart in
  let (leagueOrder, winterCart) :=
    addLeagues (Z.to_nat (winterRegularLeagues params)) leagueOrder winterCart in
  let winterCart :=
    if (winterRegularLeagues params =? 0)%Z then
      if winterDayLeagues params || winterSpareOnly params then
        if (3 <=? getLeagueCount fallCart)%nat
        then addItem basicIceReduced winterCart
        else addItem basicIce winterCart
      else if isSocial (winterSocial params) sNoDues
              && negb (hasItem social fallCart)
              && negb (hasItem membership fallCart)
           then addItem social winterCart else winterCart
    else winterCart in
  (leagueOrder, winterCart).

(** Winter: discounts. *)
Definition winterDiscounts (params : GetCostParams) (fallCart winterCart : Cart)
  : Cart :=
  if (0 <? List.length (getItems winterCart))%nat then
    let winterCart :=
      if isDiscount (discount params) reciprocal
         && hasItem membership winterCart
         && negb (hasItem membership fallCart)
         && (0 <? getLeagueCount winterCart)%nat
      then addDiscount reciprocal winterCart else winterCart in
    addSelected params winterCart
  else winterCart.

(** ** Benefit resolver *)

Record Benefits := mkBenefits {
  bFall : list Benefit;
  bWinter : list Benefit;
  bAnnual : list Benefit
}.

(** [cart.getDiscounts().some((d) => d.name === "Reciprocal member discount")] *)
Definition someReciprocal (c : Cart) : bool :=
  existsb (fun d => String.eqb (dname d) "Reciprocal member discount")
          (getDiscounts c).

(** [if (b) { l.push(x1); ...; l.push(xn) }] *)
Definition pushIf (b : bool) (xs l : list Benefit) : list Benefit :=
  if b then l ++ xs else l.

Definition seasonal : list Benefit :=
  [buildingAccess; ice; daytime; sparing; rentals; training].

Definition getBenefits (fallCart winterCart : Cart) : Benefits :=
  let fallB : list Benefit := [] in
  let winterB : list Benefit := [] in
  let annualB : list Benefit := [] in
  let fallSocial := hasItem social fallCart in
  let winterSocial := hasItem social winterCart in
  let fallMembership := hasItem membership fallCart in
  let winterMembership := hasItem membership winterCart in
  let fallLeagues := getLeagueCount fallCart in
  let winterLeagues := getLeagueCount winterCart in
  let fallIce := hasItem basicIce fallCart || (0 <? fallLeagues)%nat in
  let winterIce := hasItem basicIce winterCart || (0 <? winterLeagues)%nat in
  let annualB :=
    pushIf (fallSocial || winterSocial || fallMembership || winterMembership)
           [roster; bSocial; agm; bartending] annualB in
  let annualB :=
    if fallMembership || winterMembership then
      let annualB :=
        pushIf (negb (someReciprocal fallCart) && negb (someReciprocal winterCart))
               [dues] annualB in
      annualB ++ [voting]
    else annualB in
  let annualB := pushIf (fallIce || winterIce) [clubSpiel] annualB in
  let annualB :=
    pushIf (Qeq_bool (getTotal fallCart) 0 && Qeq_bool (getTotal winterCart) 0)
           [none] annualB in
  let fallB := pushIf fallIce seasonal fallB in
  let winterB := pushIf winterIce seasonal winterB in
  let fallB := pushIf (0 <? fallLeagues)%nat [leagues] fallB in
  let winterB := pushIf (0 <? winterLeagues)%nat [leagues] winterB in
  mkBenefits fallB winterB annualB.

(** ** Sequences of cart calls *)

Inductive CartCall :=
| AddItem (k : ItemType)
| AddDiscount (k : DiscountType).

Definition call (c : Cart) (op : CartCall) : Cart :=
  match op with
  | AddItem k => addItem k c
  | AddDiscount k => addDiscount k c
  end.

(** The cart after the calls [ops], made in order on a new cart. *)
Definition runCalls (ops : list CartCall) : Cart := fold_left call ops newCart.

Fixpoint itemsOf (ops : list CartCall) : list ItemType :=
  match ops with
  | [] => []
  | AddItem k :: ops' => k :: itemsOf ops'
  | AddDiscount _ :: ops' => itemsOf ops'
  end.

Fixpoint discountsOf (ops : list CartCall) : list DiscountType :=
  match ops with
  | [] => []
  | AddItem _ :: ops' => discountsOf ops'
  | AddDiscount k :: ops' => k :: discountsOf ops'
  end.

(** ** The total as the specification words it *)

Definition isAbsolute (d : Discount) : bool :=
  match discountStrategy d with absolute => true | percentage => false end.

Definition isPercentage (d : Discount) : bool :=
  match discountStrategy d with absolute => false | percentage => true end.

(** The discounts of [l] grouped by strategy, each group in the order of [l]. *)
Definition byStrategy (l : list Discount) : list Discount :=
  filter isAbsolute l ++ filter isPercentage l.

Definition sumCosts (l : list Sku) : Q :=
  fold_right (fun i s => cost i + s) 0 l.

Definition sumAmounts (l : list Discount) : Q :=
  fold_right (fun d s => discountAmount d + s) 0 l.

Definition productFactors (l : list Discount) : Q :=
  fold_right (fun d s => (1 - discountAmount d / 100) * s) 1 l.

(** Sum of the item costs, minus the sum of the absolute amounts, times the
    product of [1 - amount/100] over the percentage discounts. *)
Definition specTotal (c : Cart) : Q :=
  (sumCosts (cartItems c) - sumAmounts (filter isAbsolute (cartDiscounts c)))
  * productFactors (filter isPercentage (cartDiscounts c)).

(** The three stages of a total on doubles: the costs added up in order,
    the absolute amounts taken off in order, the percentage factors
    multiplied in in order. *)
Definition itemTotalDouble (l : list Sku) : float :=
  fold_left (fun p i => (toDouble (cost i) + p)%float) l 0%float.

Definition lessAbsolute (l : list Discount) (g : float) : float :=
  fold_left (fun g d => (g - toDouble (discountAmount d))%float) l g.

Definition timesPercentage (l : list Discount) (g : float) : float :=
  fold_left (fun g d => (g * (1 - toDouble (discountAmount d) / 100))%float) l g.



(** ** The league slots as the specification words them *)

(** The league items of a request of [n] leagues when [used] named slots are
    already taken: the named slots left, in order, then additional leagues. *)
Definition slotsFor (used n : nat) : list ItemType :=
  firstn n (skipn used [firstLeague; secondLeague; thirdLeague])
  ++ repeat additionalLeague (n - (3 - used)).

Definition leagueItems (c : Cart) : list Sku := filter isLeague (cartItems c).

(** ** Closed forms of the two carts

    What [getCarts] computes, written without the loops and without the
    carts as state: the kinds of the items and of the discounts of each
    cart, in order.  [getCarts_closed] below proves the two equal. *)

Definition isSlot (k : ItemType) : bool :=
  match k with
  | firstLeague | secondLeague | thirdLeague | additionalLeague => true
  | _ => false
  end.

Definition sameName (k : ItemType) (i : Sku) : bool :=
  String.eqb (name i) (name (items k)).

Definition fallCount (params : GetCostParams) : nat :=
  Z.to_nat (fallRegularLeagues params).

Definition winterCount (params : GetCostParams) : nat :=
  Z.to_nat (winterRegularLeagues params).

Definition fallExtra (params : GetCostParams) : list ItemType :=
  if (fallRegularLeagues params =? 0)%Z then
    if fallDayLeagues params || fallSpareOnly params then [basicIce]
    else if isSocial (fallSocial params) sNoDues then [social] else []
  else [].

Definition fallKinds (params : GetCostParams) : list ItemType :=
  (if wantsFall params then [membership] else [])
  ++ slotsFor 0 (fallCount params) ++ fallExtra params.

Definition selected (params : GetCostParams) : list DiscountType :=
  if isDiscount (discount params) family then [family]
  else if isDiscount (discount params) student then [student] else [].

Definition fallDiscountKinds (params : GetCostParams) : list DiscountType :=
  if wantsFall params then
    (if isDiscount (discount params) reciprocal && (0 <? fallCount params)%nat
     then [reciprocal] else [])
    ++ selected params
  else [].

Definition winterMembership (params : GetCostParams) : bool :=
  negb (wantsFall params) && wantsWinter params.

Definition winterExtra (params : GetCostParams) : list ItemType :=
  if (winterRegularLeagues params =? 0)%Z then
    if winterDayLeagues params || winterSpareOnly params then
      if (3 <=? fallCount params)%nat then [basicIceReduced] else [basicIce]
    else if isSocial (winterSocial params) sNoDues
            && negb (existsb (sameName social) (map items (fallKinds params)))
            && negb (wantsFall params)
         then [social] else []
  else [].

Definition winterKinds (params : GetCostParams) : list ItemType :=
  (if winterMembership params then [membership] else [])
  ++ slotsFor (fallCount params) (winterCount params) ++ winterExtra params.

Definition winterDiscountKinds (params : GetCostParams) : list DiscountType :=
  (if winterMembership params then [winterOnly] else [])
  ++ match winterKinds params with
     | [] => []
     | _ :: _ =>
         (if isDiscount (discount params) reciprocal
             && winterMembership params
             && (0 <? winterCount params)%nat
          then [reciprocal] else [])
         ++ selected params
     end.

(** ** Selections of the scenarios *)

(** No fall league, one winter league, family discount. *)
Definition winterOneFamily : GetCostParams :=
  mkParams 0 false false None 1 false false None (Some family).

(** Two leagues in each season. *)
Definition twoAndTwo : GetCostParams :=
  mkParams 2 false false None 2 false false None None.

(** One league in each season, family discount. *)
Definition oneAndOneFamily : GetCostParams :=
  mkParams 1 false false None 1 false false None (Some family).

(** Day leagues only, in both seasons. *)
Definition dayLeaguesBoth : GetCostParams :=
  mkParams 0 true false None 0 true false None None.

(** One winter league only, reciprocal discount. *)
Definition winterOneReciprocal : GetCostParams :=
  mkParams 0 false false None 1 false false None (Some reciprocal).

(** ** The selection behind the sliders *)

(** The object [getCostParams] every slider handler updates. *)
Definition getCostParams : GetCostParams :=
  mkParams 0 false false None 0 false false None None.

Inductive SliderType := tMembership | tIce | tDiscount.

Inductive Season := sFall | sWinter.

(** Assignments to [getCostParams[`${season}Social`]] and the like. *)
Definition setSocial (season : Season) (v : option SocialType)
    (p : GetCostParams) : GetCostParams :=
  match season with
  | sFall =>
      mkParams (fallRegularLeagues p) (fallDayLeagues p) (fallSpareOnly p) v
               (winterRegularLeagues p) (winterDayLeagues p) (winterSpareOnly p)
               (winterSocial p) (discount p)
  | sWinter =>
      mkParams (fallRegularLeagues p) (fallDayLeagues p) (fallSpareOnly p)
               (fallSocial p)
               (winterRegularLeagues p) (winterDayLeagues p) (winterSpareOnly p)
               v (discount p)
  end.

Definition setSpareOnly (season : Season) (v : bool)
    (p : GetCostParams) : GetCostParams :=
  match season with
  | sFall =>
      mkParams (fallRegularLeagues p) (fallDayLeagues p) v (fallSocial p)
               (winterRegularLeagues p) (winterDayLeagues p) (winterSpareOnly p)
               (winterSocial p) (discount p)
  | sWinter =>
      mkParams (fallRegularLeagues p) (fallDayLeagues p) (fallSpareOnly p)
               (fallSocial p)
               (winterRegularLeagues p) (winterDayLeagues p) v
               (winterSocial p) (discount p)
  end.

Definition setRegularLeagues (season : Season) (v : Z)
    (p : GetCostParams) : GetCostParams :=
  match season with
  | sFall =>
      mkParams v (fallDayLeagues p) (fallSpareOnly p) (fallSocial p)
               (winterRegularLeagues p) (winterDayLeagues p) (winterSpareOnly p)
               (winterSocial p) (discount p)
  | sWinter =>
      mkParams (fallRegularLeagues p) (fallDayLeagues p) (fallSpareOnly p)
               (fallSocial p)
               v (winterDayLeagues p) (winterSpareOnly p)
               (winterSocial p) (discount p)
  end.

Definition setDiscount (v : option DiscountType)
    (p : GetCostParams) : GetCostParams :=
  mkParams (fallRegularLeagues p) (fallDayLeagues p) (fallSpareOnly p)
           (fallSocial p)
           (winterRegularLeagues p) (winterDayLeagues p) (winterSpareOnly p)
           (winterSocial p) v.

(** The [switch (buttonText)] of the closure [getSliderHandler] returns: the
    selection one run of the switch leaves.  What the closure does next is
    not part of the embedding: the additional action (for the fall
    membership slider it may click the button of the same text on the
    winter membership slider, which runs the winter switch as well; for the
    other sliders it changes the page only), the look at the selected
    buttons and the call of [setCarts]. *)
Definition getSliderHandler (type : SliderType) (season : Season)
    (buttonText : string) (p : GetCostParams) : GetCostParams :=
  if String.eqb buttonText "Social" then
    setRegularLeagues season 0
      (setSpareOnly season false (setSocial season (Some sNoDues) p))
  else if String.eqb buttonText "Social + dues" then
    setRegularLeagues season 0
      (setSpareOnly season false (setSocial season (Some sDues) p))
  else if String.eqb buttonText "Regular" then p
  else if String.eqb buttonText "Day leagues & sparing" then
    setRegularLeagues season 0 (setSpareOnly season true p)
  else if String.eqb buttonText "1 league" then setRegularLeagues season 1 p
  else if String.eqb buttonText "2 leagues" then setRegularLeagues season 2 p
  else if String.eqb buttonText "3 leagues" then setRegularLeagues season 3 p
  else if String.eqb buttonText "4 leagues" then setRegularLeagues season 4 p
  else if String.eqb buttonText "5 leagues" then setRegularLeagues season 5 p
  else if String.eqb buttonText "None" then
    match type with
    | tMembership =>
        setRegularLeagues season 0
          (setSpareOnly season false (setSocial season None p))
    | tDiscount => setDiscount None p
    | tIce => p
    end
  else if String.eqb buttonText "Family - 5%" then setDiscount (Some family) p
  else if String.eqb buttonText "Student - 30%" then setDiscount (Some student) p
  else if String.eqb buttonText "Reciprocal - $75" then
    setDiscount (Some reciprocal) p
  else p.

(** A run of the switch: the slider of the handler (its type and season) and
    the button text the handler is given. *)
Record Click := mkClick {
  clickType : SliderType;
  clickSeason : Season;
  clickText : string
}.

(** The selection after the runs [cs] of the switch, in order, from the
    initial one.  A click on the page runs the switch once, or not at all
    ([sliderButton] does not call the handler of a button that is already
    selected), or for two sliders (a fall membership click mirrored on the
    winter slider).  So every selection the page reaches is [afterClicks cs]
    for some [cs], while not every [cs] is what a sequence of clicks runs. *)
Definition afterClicks (cs : list Click) : GetCostParams :=
  fold_left (fun p c => getSliderHandler (clickType c) (clickSeason c)
                                         (clickText c) p)
            cs getCostParams.

(** ** The texts [setCarts] computes *)

Definition benefits (b : Benefit) : string :=
  match b with
  | roster => "Inclusion on the official Triangle Curling Club roster of members"
  | nameTag => "Name tag (for new members only)"
  | bSocial => "Access to Triangle Curling membership online social groups"
  | agm =>
      "Attendance to the Annual General Meeting and end-of-season celebration and board meetings"
  | bartending => "Ability to volunteer as a bartender"
  | dues =>
      "Dues paid on your behalf to USA Curling, GNCC, and USWCA (as applicable)"
  | voting =>
      "Voting in elections to select board members, bylaws changes, and more (members 18+ only)"
  | buildingAccess => "Building access (door and security codes)"
  | ice => "Unlimited practice when ice is available"
  | daytime =>
      "Participate in Tuesday and Wednesday Daytime Leagues at no extra cost"
  | sparing => "Unlimited sparing"
  | training => "Ability to register for clinics run by the Training Committee"
  | rentals => "Discounted rates on private rentals"
  | clubSpiel =>
      "Ability to participate in the Triangle Club Bonspiel (usually in March/April)"
  | leagues => "Participate in <NUM> <PLURAL_LEAGUE>"
  | none => "Adjust your selection above to see benefits"
  end.

(** [s] without its first [n] characters. *)
Fixpoint dropChars (n : nat) (s : string) : string :=
  match n, s with
  | O, _ => s
  | S n', String _ s' => dropChars n' s'
  | S _, EmptyString => EmptyString
  end.

(** [s.replace(pat, rep)] for a string [pat]: the first occurrence of [pat]
    replaced by [rep], [s] itself when there is none.  The replacement
    strings of the source hold no [$], so its patterns are not modelled. *)
Fixpoint String_replace (s pat rep : string) : string :=
  if String.prefix pat s then (rep ++ dropChars (String.length pat) s)%string
  else match s with
       | EmptyString => EmptyString
       | String c s' => String c (String_replace s' pat rep)
       end.

(** [String(n)] for a count [n]: its decimal digits. *)
Definition String_of_count (n : nat) : string :=
  NilZero.string_of_uint (Nat.to_uint n).

(** The text of a list item of the fall or winter benefits, for the league
    count of that season's cart. *)
Definition benefitText (b : Benefit) (leagueCount : nat) : string :=
  String_replace
    (String_replace (benefits b) "<NUM>" (String_of_count leagueCount))
    "<PLURAL_LEAGUE>"
    (if (leagueCount =? 1)%nat then "league" else "leagues").

(** [x > 0] on totals. *)
Definition positive (x : Q) : bool := negb (Qle_bool x 0).

Definition priceText (fallTotal winterTotal : Q) : string :=
  if positive winterTotal && positive fallTotal
  then " - due in two separate payments shown below"
  else if positive winterTotal || positive fallTotal
       then " - due in one payment shown below"
       else "".

(** ** Carts with a positive total

    The kinds of a cart that is empty, items and discounts, or whose sorted
    discounts take off less than its items cost. *)

Definition payable (ks : list ItemType) (ds : list DiscountType) : Prop :=
  (ks = [] /\ ds = [])
  \/ (ks <> []
      /\ byStrategy (map discounts ds) = map discounts ds
      /\ (sumAmounts (filter isAbsolute (map discounts ds))
          < sumCosts (map items ks))%Q).

(** * Properties *)

(** ** Evaluations *)

(** The four league items count as leagues; the two basic-ice names hold
    "league" but also "daytime". *)
Example isLeague_catalog :
  map (fun k => isLeague (items k))
      [membership; firstLeague; secondLeague; thirdLeague; additionalLeague;
       basicIce; basicIceReduced; social]
  = [false; true; true; true; true; false; false; false].
Proof. reflexivity. Qed.

Example sort_example :
  sort compareDiscounts (map discounts [family; reciprocal; student; winterOnly])
  = map discounts [reciprocal; winterOnly; family; student].
Proof. reflexivity. Qed.

(** Two fall leagues with the reciprocal discount: 135 + 155 + 155 - 75. *)
Example fallTwoReciprocal_carts :
  let c := getCarts (mkParams 2 false false None 0 false false None
                              (Some reciprocal)) in
  cartItems (fall c) = map items [membership; firstLeague; secondLeague]
  /\ cartDiscounts (fall c) = [discounts reciprocal]
  /\ (getTotal (fall c) == 370)%Q
  /\ winter c = newCart.
Proof. repeat split. Qed.

(** Nothing selected: two empty carts and the placeholder benefit. *)
Example nothing_selected :
  let c := getCarts (mkParams 0 false false None 0 false false None None) in
  c = mkCarts newCart newCart
  /\ getBenefits (fall c) (winter c) = mkBenefits [] [] [none].
Proof. split; reflexivity. Qed.

(** The numbers of the catalog as doubles. *)
Example toDouble_catalog :
  map (fun k => toDouble (cost (items k)))
      [membership; firstLeague; secondLeague; thirdLeague; additionalLeague;
       basicIce; basicIceReduced; social]
  = [135; 155; 155; 155; 55; 115; 55; 50]%float
  /\ map (fun k => toDouble (discountAmount (discounts k)))
         [family; student; reciprocal; winterOnly]
     = [5; 30; 75; 35]%float.
Proof. split; vm_compute; reflexivity. Qed.

(** One winter league with the family discount, on doubles: 255 * 0.95. *)
Example winterOneFamily_double :
  getTotalDouble (winter (getCarts winterOneFamily)) = 242.25%float.
Proof. vm_compute. reflexivity. Qed.

(** ** The stable sort of the discounts *)

Lemma sort_insert_absolute (x : Discount) (l : list Discount) :
  isAbsolute x = true -> sort_insert compareDiscounts x l = x :: l.
Proof.
  unfold isAbsolute, compareDiscounts.
  destruct l as [|y l]; simpl; [reflexivity|].
  destruct (discountStrategy x); [|discriminate].
  intros _. now destruct (discountStrategy y).
Qed.

Lemma sort_insert_percentage (x : Discount) (a b : list Discount) :
  isPercentage x = true ->
  forallb isAbsolute a = true ->
  forallb isPercentage b = true ->
  sort_insert compareDiscounts x (a ++ b) = a ++ x :: b.
Proof.
  unfold isPercentage at 1. intros Hx Ha Hb.
  induction a as [|y a IH]; simpl in *.
  - destruct b as [|z b]; simpl in *; [reflexivity|].
    apply andb_true_iff in Hb as [Hz _].
    unfold compareDiscounts, isPercentage in *.
    destruct (discountStrategy x); [discriminate|].
    now destruct (discountStrategy z).
  - apply andb_true_iff in Ha as [Hy Ha].
    rewrite (IH Ha).
    unfold compareDiscounts, isAbsolute in *.
    destruct (discountStrategy x); [discriminate|].
    now destruct (discountStrategy y).
Qed.

Lemma strategy_cases (d : Discount) :
  (isAbsolute d = true /\ isPercentage d = false) \/
  (isAbsolute d = false /\ isPercentage d = true).
Proof.
  unfold isAbsolute, isPercentage. destruct (discountStrategy d); auto.
Qed.

(** Sorting groups by strategy and keeps the order inside each group. *)
Lemma sort_byStrategy (l : list Discount) :
  sort compareDiscounts l = byStrategy l.
Proof.
  unfold byStrategy.
  induction l as [|x l IH]; [reflexivity|].
  change (sort compareDiscounts (x :: l))
    with (sort_insert compareDiscounts x (sort compareDiscounts l)).
  rewrite IH. simpl.
  destruct (strategy_cases x) as [[Ha Hp]|[Ha Hp]]; rewrite Ha, Hp.
  - now apply sort_insert_absolute.
  - apply sort_insert_percentage; auto using forallb_filter.
Qed.

Lemma filter_absolute_percentage (l : list Discount) :
  filter isAbsolute (filter isPercentage l) = [].
Proof.
  induction l as [|x l IH]; simpl; [reflexivity|].
  destruct (strategy_cases x) as [[Ha Hp]|[Ha Hp]]; rewrite Hp; simpl;
    rewrite ?Ha; exact IH.
Qed.

Lemma filter_percentage_absolute (l : list Discount) :
  filter isPercentage (filter isAbsolute l) = [].
Proof.
  induction l as [|x l IH]; simpl; [reflexivity|].
  destruct (strategy_cases x) as [[Ha Hp]|[Ha Hp]]; rewrite Ha; simpl;
    rewrite ?Hp; exact IH.
Qed.

Lemma filter_idem {A : Type} (f : A -> bool) (l : list A) :
  filter f (filter f l) = filter f l.
Proof. apply forallb_filter_id, forallb_filter. Qed.

Lemma filter_absolute_byStrategy (l : list Discount) :
  filter isAbsolute (byStrategy l) = filter isAbsolute l.
Proof.
  unfold byStrategy.
  now rewrite filter_app, filter_idem, filter_absolute_percentage, app_nil_r.
Qed.

Lemma filter_percentage_byStrategy (l : list Discount) :
  filter isPercentage (byStrategy l) = filter isPercentage l.
Proof.
  unfold byStrategy.
  now rewrite filter_app, filter_idem, filter_percentage_absolute.
Qed.

Lemma byStrategy_idem (l : list Discount) : byStrategy (byStrategy l) = byStrategy l.
Proof.
  unfold byStrategy at 1.
  now rewrite filter_absolute_byStrategy, filter_percentage_byStrategy.
Qed.

Lemma byStrategy_app_l (l m : list Discount) :
  byStrategy (byStrategy l ++ m) = byStrategy (l ++ m).
Proof.
  unfold byStrategy at 1 3.
  now rewrite !filter_app, filter_absolute_byStrategy, filter_percentage_byStrategy.
Qed.

(** ** Carts built by calls *)

Lemma runCalls_snoc (ops : list CartCall) (op : CartCall) :
  runCalls (ops ++ [op]) = call (runCalls ops) op.
Proof. unfold runCalls. now rewrite fold_left_app. Qed.

Lemma itemsOf_app (l m : list CartCall) : itemsOf (l ++ m) = itemsOf l ++ itemsOf m.
Proof.
  induction l as [|[k|k] l IH]; simpl; now rewrite ?IH.
Qed.

Lemma discountsOf_app (l m : list CartCall) :
  discountsOf (l ++ m) = discountsOf l ++ discountsOf m.
Proof.
  induction l as [|[k|k] l IH]; simpl; now rewrite ?IH.
Qed.

Lemma cartItems_runCalls (ops : list CartCall) :
  cartItems (runCalls ops) = map items (itemsOf ops).
Proof.
  induction ops as [|op ops IH] using rev_ind; [reflexivity|].
  rewrite runCalls_snoc, itemsOf_app, map_app, <- IH.
  destruct op; simpl; now rewrite ?app_nil_r.
Qed.

Lemma cartDiscounts_runCalls (ops : list CartCall) :
  cartDiscounts (runCalls ops) = byStrategy (map discounts (discountsOf ops)).
Proof.
  induction ops as [|op ops IH] using rev_ind; [reflexivity|].
  rewrite runCalls_snoc, discountsOf_app, map_app.
  destruct op; simpl.
  - now rewrite app_nil_r.
  - now rewrite sort_byStrategy, IH, byStrategy_app_l.
Qed.

(** C6: after any sequence of calls the discounts of the cart are the
    absolute discounts added, in the order they were added, followed by the
    percentage discounts added, in the order they were added; sorting that
    sequence again leaves it as it is, and so does sorting any sorted
    sequence of discounts. *)
Theorem discounts_sorted_stable :
  (forall ops : list CartCall,
     let added := map discounts (discountsOf ops) in
     cartDiscounts (runCalls ops)
       = filter isAbsolute added ++ filter isPercentage added
     /\ sort compareDiscounts (cartDiscounts (runCalls ops))
       = cartDiscounts (runCalls ops))
  /\ (forall l : list Discount,
        sort compareDiscounts (sort compareDiscounts l)
        = sort compareDiscounts l).
Proof.
  split.
  - intros ops. cbv zeta. rewrite cartDiscounts_runCalls.
    split; [reflexivity|].
    now rewrite sort_byStrategy, byStrategy_idem.
  - intros l. now rewrite !sort_byStrategy, byStrategy_idem.
Qed.

(** ** The total *)

Local Open Scope Q_scope.

Lemma fold_costs (l : list Sku) (p : Q) :
  fold_left (fun p i => cost i + p) l p == sumCosts l + p.
Proof.
  revert p. induction l as [|i l IH]; intros p; simpl.
  - ring.
  - rewrite IH. ring.
Qed.

Lemma fold_absolute (l : list Discount) (g : Q) :
  forallb isAbsolute l = true ->
  fold_left applyDiscount l g == g - sumAmounts l.
Proof.
  revert g. induction l as [|d l IH]; intros g H; simpl in *.
  - ring.
  - apply andb_true_iff in H as [Hd H].
    rewrite (IH _ H). unfold applyDiscount, isAbsolute in *.
    destruct (discountStrategy d); [ring|discriminate].
Qed.

Lemma fold_percentage (l : list Discount) (g : Q) :
  forallb isPercentage l = true ->
  fold_left applyDiscount l g == g * productFactors l.
Proof.
  revert g. induction l as [|d l IH]; intros g H; simpl in *.
  - ring.
  - apply andb_true_iff in H as [Hd H].
    rewrite (IH _ H). unfold applyDiscount, isPercentage in *.
    destruct (discountStrategy d); [discriminate|ring].
Qed.

(** On a cart whose discounts are grouped by strategy, [getTotal] is the
    total of the specification. *)
Lemma getTotal_sorted (c : Cart) :
  cartDiscounts c = byStrategy (cartDiscounts c) ->
  getTotal c == specTotal c.
Proof.
  intros Hs. unfold getTotal, specTotal.
  rewrite Hs at 1. unfold byStrategy.
  rewrite fold_left_app.
  rewrite fold_percentage by apply forallb_filter.
  rewrite fold_absolute by apply forallb_filter.
  rewrite fold_costs. ring.
Qed.

Lemma getTotal_runCalls (ops : list CartCall) :
  getTotal (runCalls ops) == specTotal (runCalls ops).
Proof.
  apply getTotal_sorted.
  now rewrite cartDiscounts_runCalls, byStrategy_idem.
Qed.

Local Close Scope Q_scope.

(** ** The total on doubles *)

Lemma fold_absolute_double (l : list Discount) (g : float) :
  forallb isAbsolute l = true ->
  fold_left applyDiscountDouble l g = lessAbsolute l g.
Proof.
  revert g. induction l as [|d l IH]; intros g H; [reflexivity|].
  simpl in H. apply andb_true_iff in H as [Hd H].
  simpl. rewrite <- (IH _ H). f_equal.
  unfold applyDiscountDouble, isAbsolute in *.
  now destruct (discountStrategy d).
Qed.

Lemma fold_percentage_double (l : list Discount) (g : float) :
  forallb isPercentage l = true ->
  fold_left applyDiscountDouble l g = timesPercentage l g.
Proof.
  revert g. induction l as [|d l IH]; intros g H; [reflexivity|].
  simpl in H. apply andb_true_iff in H as [Hd H].
  simpl. rewrite <- (IH _ H). f_equal.
  unfold applyDiscountDouble, isPercentage in *.
  now destruct (discountStrategy d).
Qed.

(** The total of a cart built by calls, stage by stage, from the calls. *)
Lemma getTotalDouble_runCalls (ops : list CartCall) :
  getTotalDouble (runCalls ops)
  = timesPercentage (filter isPercentage (map discounts (discountsOf ops)))
      (lessAbsolute (filter isAbsolute (map discounts (discountsOf ops)))
         (itemTotalDouble (map items (itemsOf ops)))).
Proof.
  unfold getTotalDouble.
  rewrite cartItems_runCalls, cartDiscounts_runCalls.
  unfold byStrategy. rewrite fold_left_app.
  rewrite (fold_absolute_double (filter isAbsolute _)) by apply forallb_filter.
  now rewrite fold_percentage_double by apply forallb_filter.
Qed.




(** ** The enrollment resolver, block by block *)

Lemma getCarts_blocks (params : GetCostParams) :
  getCarts params =
  let (leagueOrder, fallCart) :=
    fallItems params [firstLeague; secondLeague; thirdLeague] in
  let fallCart := fallDiscounts params fallCart in
  let (_, winterCart) := winterItems params fallCart leagueOrder in
  mkCarts fallCart (winterDiscounts params fallCart winterCart).
Proof.
  unfold getCarts, fallItems, fallDiscounts, winterItems, winterDiscounts,
    addSelected, wantsFall, wantsWinter.
  destruct (addLeagues (Z.to_nat (fallRegularLeagues params)) _ _) as [o f].
  cbv zeta.
  destruct (addLeagues (Z.to_nat (winterRegularLeagues params)) _ _) as [o' w].
  reflexivity.
Qed.

Lemma cart_eta (c : Cart) : mkCart (cartItems c) (cartDiscounts c) = c.
Proof. now destruct c. Qed.

(** The league loop: [n] shifts of the array, the shifted slots added in
    order, and an additional league for every shift of the empty array. *)
Lemma addLeagues_eq (n : nat) (leagueOrder : list ItemType) (c : Cart) :
  addLeagues n leagueOrder c =
  (skipn n leagueOrder,
   mkCart (cartItems c
           ++ map items (firstn n leagueOrder
                         ++ repeat additionalLeague (n - List.length leagueOrder)))
          (cartDiscounts c)).
Proof.
  revert leagueOrder c.
  induction n as [|n IH]; intros leagueOrder c.
  - simpl. now rewrite app_nil_r, cart_eta.
  - destruct leagueOrder as [|k leagueOrder]; simpl; rewrite IH; simpl.
    + rewrite skipn_nil, firstn_nil, Nat.sub_0_r, <- app_assoc. reflexivity.
    + rewrite <- app_assoc. reflexivity.
Qed.

Lemma hasItem_existsb (k : ItemType) (c : Cart) :
  hasItem k c = existsb (sameName k) (cartItems c).
Proof.
  unfold hasItem. fold (sameName k).
  induction (cartItems c) as [|i l IH]; simpl; [reflexivity|].
  now destruct (sameName k i).
Qed.

Lemma forallb_firstn {A : Type} (f : A -> bool) (n : nat) (l : list A) :
  forallb f l = true -> forallb f (firstn n l) = true.
Proof.
  revert l. induction n as [|n IH]; intros [|x l]; simpl; auto.
  intros H. apply andb_true_iff in H as [-> H]. now apply IH.
Qed.

Lemma forallb_skipn {A : Type} (f : A -> bool) (n : nat) (l : list A) :
  forallb f l = true -> forallb f (skipn n l) = true.
Proof.
  revert l. induction n as [|n IH]; intros [|x l]; simpl; auto.
  intros H. apply andb_true_iff in H as [_ H]. now apply IH.
Qed.

Lemma forallb_repeat {A : Type} (f : A -> bool) (x : A) (n : nat) :
  f x = true -> forallb f (repeat x n) = true.
Proof. intros H. induction n; simpl; [reflexivity|now rewrite H]. Qed.

Lemma slotsFor_isSlot (used n : nat) : forallb isSlot (slotsFor used n) = true.
Proof.
  unfold slotsFor. rewrite forallb_app.
  rewrite forallb_firstn by (now apply forallb_skipn).
  now rewrite forallb_repeat.
Qed.

Lemma slotsFor_length (used n : nat) : List.length (slotsFor used n) = n.
Proof.
  unfold slotsFor.
  rewrite length_app, length_firstn, length_skipn, repeat_length. simpl. lia.
Qed.

Lemma slots_leagues (ks : list ItemType) :
  forallb isSlot ks = true ->
  filter isLeague (map items ks) = map items ks.
Proof.
  induction ks as [|k ks IH]; simpl; [reflexivity|].
  intros H. apply andb_true_iff in H as [Hk H].
  rewrite (IH H). now destruct k.
Qed.

Lemma slots_not_named (k0 : ItemType) (ks : list ItemType) :
  isSlot k0 = false ->
  forallb isSlot ks = true ->
  existsb (sameName k0) (map items ks) = false.
Proof.
  intros H0. induction ks as [|k ks IH]; simpl; [reflexivity|].
  intros H. apply andb_true_iff in H as [Hk H].
  rewrite (IH H). now destruct k0, k.
Qed.

Lemma fallItems_closed (params : GetCostParams) :
  fallItems params [firstLeague; secondLeague; thirdLeague] =
  (skipn (fallCount params) [firstLeague; secondLeague; thirdLeague],
   mkCart (map items (fallKinds params)) []).
Proof.
  unfold fallItems, fallKinds, fallExtra, fallCount, slotsFor.
  rewrite addLeagues_eq.
  change (skipn 0 [firstLeague; secondLeague; thirdLeague])
    with [firstLeague; secondLeague; thirdLeague].
  change (List.length [firstLeague; secondLeague; thirdLeague]) with 3%nat.
  change (3 - 0)%nat with 3%nat.
  generalize (firstn (Z.to_nat (fallRegularLeagues params))
                [firstLeague; secondLeague; thirdLeague]
              ++ repeat additionalLeague (Z.to_nat (fallRegularLeagues params) - 3))
    as slots.
  intros slots.
  destruct (wantsFall params), (fallRegularLeagues params =? 0)%Z,
    (fallDayLeagues params || fallSpareOnly params),
    (isSocial (fallSocial params) sNoDues);
    unfold addItem; simpl; rewrite ?map_app, ?app_nil_r; reflexivity.
Qed.

Lemma filter_none {A : Type} (f : A -> bool) (l : list A) :
  forallb (fun x => negb (f x)) l = true -> filter f l = [].
Proof.
  induction l as [|x l IH]; simpl; [reflexivity|].
  intros H. apply andb_true_iff in H as [Hx H].
  apply negb_true_iff in Hx. now rewrite Hx, IH.
Qed.

(** The league items of a cart whose items are slots between items that
    are not leagues. *)
Lemma leagues_of_kinds (pre post : list ItemType) (used n : nat) :
  forallb (fun i => negb (isLeague i)) (map items pre) = true ->
  forallb (fun i => negb (isLeague i)) (map items post) = true ->
  filter isLeague (map items (pre ++ slotsFor used n ++ post))
  = map items (slotsFor used n).
Proof.
  intros Hpre Hpost.
  rewrite !map_app, !filter_app.
  rewrite (filter_none _ _ Hpre), (filter_none _ _ Hpost), app_nil_r.
  apply slots_leagues, slotsFor_isSlot.
Qed.

Lemma fall_leagueItems (params : GetCostParams) :
  filter isLeague (map items (fallKinds params))
  = map items (slotsFor 0 (fallCount params)).
Proof.
  unfold fallKinds. apply leagues_of_kinds.
  - now destruct (wantsFall params).
  - unfold fallExtra.
    now destruct (fallRegularLeagues params =? 0)%Z,
      (fallDayLeagues params || fallSpareOnly params),
      (isSocial (fallSocial params) sNoDues).
Qed.

Lemma winter_leagueItems (params : GetCostParams) :
  filter isLeague (map items (winterKinds params))
  = map items (slotsFor (fallCount params) (winterCount params)).
Proof.
  unfold winterKinds. apply leagues_of_kinds.
  - now destruct (winterMembership params).
  - unfold winterExtra.
    now destruct (winterRegularLeagues params =? 0)%Z,
      (winterDayLeagues params || winterSpareOnly params),
      (3 <=? fallCount params)%nat,
      (isSocial (winterSocial params) sNoDues
       && negb (existsb (sameName social) (map items (fallKinds params)))
       && negb (wantsFall params)).
Qed.

Lemma fall_leagueCount (params : GetCostParams) :
  List.length (filter isLeague (map items (fallKinds params))) = fallCount params.
Proof. now rewrite fall_leagueItems, length_map, slotsFor_length. Qed.

Lemma winter_leagueCount (params : GetCostParams) :
  List.length (filter isLeague (map items (winterKinds params)))
  = winterCount params.
Proof. now rewrite winter_leagueItems, length_map, slotsFor_length. Qed.

Lemma wantsFall_false (params : GetCostParams) :
  wantsFall params = false ->
  fallCount params = 0%nat
  /\ fallDayLeagues params || fallSpareOnly params = false.
Proof.
  unfold wantsFall, fallCount. intros H.
  apply orb_false_iff in H as [H _].
  apply orb_false_iff in H as [H Hn].
  split; [|exact H].
  apply Z.ltb_ge in Hn. lia.
Qed.

Lemma fall_hasMembership (params : GetCostParams) :
  existsb (sameName membership) (map items (fallKinds params))
  = wantsFall params.
Proof.
  unfold fallKinds.
  destruct (wantsFall params) eqn:Hw; [reflexivity|].
  destruct (wantsFall_false _ Hw) as [Hn Hd].
  rewrite Hn. unfold fallExtra. rewrite Hd.
  now destruct (fallRegularLeagues params =? 0)%Z,
    (isSocial (fallSocial params) sNoDues).
Qed.

Lemma winter_hasMembership (params : GetCostParams) :
  existsb (sameName membership) (map items (winterKinds params))
  = winterMembership params.
Proof.
  unfold winterKinds.
  destruct (winterMembership params) eqn:Hw; [reflexivity|].
  rewrite app_nil_l, map_app, existsb_app.
  rewrite slots_not_named by (reflexivity || apply slotsFor_isSlot).
  unfold winterExtra.
  now destruct (winterRegularLeagues params =? 0)%Z,
    (winterDayLeagues params || winterSpareOnly params),
    (3 <=? fallCount params)%nat,
    (isSocial (winterSocial params) sNoDues
     && negb (existsb (sameName social) (map items (fallKinds params)))
     && negb (wantsFall params)).
Qed.

Lemma fallDiscounts_closed (params : GetCostParams) :
  fallDiscounts params (mkCart (map items (fallKinds params)) [])
  = mkCart (map items (fallKinds params))
           (map discounts (fallDiscountKinds params)).
Proof.
  unfold fallDiscounts, fallDiscountKinds, getLeagueCount, getItems.
  rewrite hasItem_existsb. simpl cartItems.
  rewrite fall_hasMembership, fall_leagueCount.
  destruct (wantsFall params) eqn:Hw; [|now rewrite andb_false_r].
  replace (0 <? List.length (map items (fallKinds params)))%nat with true
    by (unfold fallKinds; now rewrite Hw).
  unfold addSelected, selected.
  generalize (map items (fallKinds params)) as l. intros l.
  destruct (discount params) as [[| | |]|], (0 <? fallCount params)%nat;
    reflexivity.
Qed.

Lemma winterItems_closed (params : GetCostParams) :
  winterItems params
    (mkCart (map items (fallKinds params))
            (map discounts (fallDiscountKinds params)))
    (skipn (fallCount params) [firstLeague; secondLeague; thirdLeague])
  = (skipn (winterCount params)
       (skipn (fallCount params) [firstLeague; secondLeague; thirdLeague]),
     mkCart (map items (winterKinds params))
            (map discounts (if winterMembership params then [winterOnly] else []))).
Proof.
  unfold winterItems, winterKinds, winterExtra, winterMembership, winterCount,
    slotsFor, getLeagueCount.
  rewrite !hasItem_existsb. simpl cartItems.
  rewrite fall_hasMembership, fall_leagueCount, addLeagues_eq, length_skipn.
  change (List.length [firstLeague; secondLeague; thirdLeague]) with 3%nat.
  generalize (firstn (Z.to_nat (winterRegularLeagues params))
                (skipn (fallCount params) [firstLeague; secondLeague; thirdLeague])
              ++ repeat additionalLeague
                   (Z.to_nat (winterRegularLeagues params) - (3 - fallCount params)))
    as slots.
  intros slots.
  destruct (wantsFall params), (wantsWinter params),
    (winterRegularLeagues params =? 0)%Z,
    (winterDayLeagues params || winterSpareOnly params),
    (3 <=? fallCount params)%nat,
    (isSocial (winterSocial params) sNoDues),
    (existsb (sameName social) (map items (fallKinds params)));
    unfold addItem; simpl; rewrite ?map_app, ?app_nil_r; reflexivity.
Qed.

Lemma winterDiscounts_closed (params : GetCostParams) :
  winterDiscounts params
    (mkCart (map items (fallKinds params))
            (map discounts (fallDiscountKinds params)))
    (mkCart (map items (winterKinds params))
            (map discounts (if winterMembership params then [winterOnly] else [])))
  = mkCart (map items (winterKinds params))
           (map discounts (winterDiscountKinds params)).
Proof.
  unfold winterDiscounts, winterDiscountKinds, getLeagueCount, getItems.
  rewrite !hasItem_existsb. simpl cartItems.
  rewrite fall_hasMembership, winter_hasMembership, winter_leagueCount.
  unfold addSelected, selected, winterMembership.
  destruct (winterKinds params) as [|k ks].
  - simpl. now rewrite app_nil_r.
  - change (0 <? List.length (map items (k :: ks)))%nat with true.
    generalize (map items (k :: ks)) as l. intros l.
    destruct (wantsFall params), (wantsWinter params),
      (discount params) as [[| | |]|], (0 <? winterCount params)%nat;
      reflexivity.
Qed.

(** [getCarts] computes the two closed forms. *)
Lemma getCarts_closed (params : GetCostParams) :
  getCarts params =
  mkCarts (mkCart (map items (fallKinds params))
                  (map discounts (fallDiscountKinds params)))
          (mkCart (map items (winterKinds params))
                  (map discounts (winterDiscountKinds params))).
Proof.
  rewrite getCarts_blocks, fallItems_closed. cbv beta iota zeta.
  rewrite fallDiscounts_closed, winterItems_closed.
  now rewrite winterDiscounts_closed.
Qed.

(** ** Properties of the enrollment resolver *)

(** C1 (as the code has it): for no fall league, one winter league and the
    family discount, the fall cart is empty, the winter cart holds exactly
    the membership and the first league, with exactly the winter-only and
    the family discounts, and its total is (135 + 155 - 35) * 0.95 = 242.25. *)
Theorem winterOneFamily_carts :
  fall (getCarts winterOneFamily) = newCart
  /\ cartItems (winter (getCarts winterOneFamily))
     = [items membership; items firstLeague]
  /\ cartDiscounts (winter (getCarts winterOneFamily))
     = [discounts winterOnly; discounts family]
  /\ (getTotal (winter (getCarts winterOneFamily)) == 242.25)%Q.
Proof.
  split; [reflexivity|].
  split; [reflexivity|].
  split; [reflexivity|].
  vm_compute. reflexivity.
Qed.

(** C1 as stated fails: the total of that winter cart is not 237.5. *)
Lemma winterOneFamily_total_not_237_5 :
  ~ (getTotal (winter (getCarts winterOneFamily)) == 237.5)%Q.
Proof.
  intros H. vm_compute in H. discriminate H.
Qed.

Lemma discounts_inj (a b : DiscountType) : discounts a = discounts b -> a = b.
Proof. destruct a, b; intros H; try reflexivity; discriminate H. Qed.

Lemma In_discounts (k : DiscountType) (l : list DiscountType) :
  In (discounts k) (map discounts l) <-> In k l.
Proof.
  rewrite in_map_iff. split.
  - intros [k' [E H]]. now rewrite <- (discounts_inj _ _ E).
  - intros H. now exists k.
Qed.

Lemma winterKinds_nil (params : GetCostParams) :
  winterKinds params = [] ->
  winterMembership params = false /\ winterCount params = 0%nat.
Proof.
  intros H. split.
  - rewrite <- winter_hasMembership, H. reflexivity.
  - rewrite <- winter_leagueCount, H. reflexivity.
Qed.

Lemma In_selected (k : DiscountType) (params : GetCostParams) :
  In k (selected params) <->
  discount params = Some k /\ (k = family \/ k = student).
Proof.
  unfold selected.
  destruct (discount params) as [[| | |]|], k; simpl;
    intuition (discriminate || congruence).
Qed.

(** The discounts of the winter cart, kind by kind. *)
Lemma winter_discount_cases (params : GetCostParams) (k : DiscountType) :
  In k (winterDiscountKinds params) <->
  match k with
  | winterOnly => winterMembership params = true
  | reciprocal =>
      discount params = Some reciprocal
      /\ winterMembership params = true /\ (0 < winterCount params)%nat
  | _ => discount params = Some k /\ winterKinds params <> []
  end.
Proof.
  unfold winterDiscountKinds.
  destruct (winterKinds params) as [|k0 ks] eqn:Hk.
  - destruct (winterKinds_nil _ Hk) as [Hm Hn]. rewrite Hm, Hn.
    destruct k; simpl; intuition (discriminate || lia).
  - rewrite !in_app_iff, In_selected.
    destruct (winterMembership params), (discount params) as [[| | |]|],
      (Nat.ltb_spec 0 (winterCount params)), k; simpl;
      intuition (discriminate || congruence || lia).
Qed.

(** C2: the family (student) discount is in the winter cart exactly when
    it is the selected discount and the winter cart is not empty, with no
    condition on membership: one league in each season with the family
    discount gives a winter cart without membership that has the family
    discount.  The reciprocal discount is in the winter cart exactly when
    it is selected, the winter cart has membership, the fall cart has not,
    and the winter cart has a league. *)
Theorem winter_discounts_assignment :
  (forall params : GetCostParams,
     let f := fall (getCarts params) in
     let w := winter (getCarts params) in
     (In (discounts family) (cartDiscounts w) <->
      discount params = Some family /\ cartItems w <> [])
     /\ (In (discounts student) (cartDiscounts w) <->
         discount params = Some student /\ cartItems w <> [])
     /\ (In (discounts reciprocal) (cartDiscounts w) <->
         discount params = Some reciprocal
         /\ hasItem membership w = true
         /\ hasItem membership f = false
         /\ (0 < getLeagueCount w)%nat))
  /\ (hasItem membership (winter (getCarts oneAndOneFamily)) = false
      /\ In (discounts family) (cartDiscounts (winter (getCarts oneAndOneFamily)))).
Proof.
  split; [|split; [reflexivity|simpl; auto]].
  intros params. rewrite getCarts_closed. cbv zeta.
  unfold getLeagueCount. rewrite !hasItem_existsb.
  cbn [fall winter cartItems cartDiscounts].
  rewrite !In_discounts, !winter_discount_cases.
  rewrite winter_hasMembership, fall_hasMembership, winter_leagueCount.
  assert (Hmap : map items (winterKinds params) <> [] <-> winterKinds params <> []).
  { destruct (winterKinds params); simpl; split; intros H; congruence. }
  rewrite Hmap.
  unfold winterMembership.
  destruct (wantsFall params), (wantsWinter params); simpl;
    intuition discriminate.
Qed.

(** C5: if the winter cart has membership then the fall cart has not, and
    the winter cart carries the winter-only discount. *)
Theorem winter_membership_gate (params : GetCostParams) :
  let f := fall (getCarts params) in
  let w := winter (getCarts params) in
  (hasItem membership w = true -> hasItem membership f = false)
  /\ (hasItem membership w = true ->
      In (discounts winterOnly) (cartDiscounts w)).
Proof.
  rewrite getCarts_closed. cbv zeta.
  rewrite !hasItem_existsb. cbn [fall winter cartItems cartDiscounts].
  rewrite winter_hasMembership, fall_hasMembership, In_discounts.
  rewrite (winter_discount_cases params winterOnly).
  unfold winterMembership.
  destruct (wantsFall params); simpl; auto.
Qed.

(** The winter cart of a winter-only selection has membership, the fall
    cart has none, and the winter-only discount is there. *)
Lemma winter_membership_gate_witness :
  hasItem membership (fall (getCarts winterOneReciprocal)) = false
  /\ In (discounts winterOnly)
        (cartDiscounts (winter (getCarts winterOneReciprocal))).
Proof.
  destruct (winter_membership_gate winterOneReciprocal) as [H1 H2].
  split; [apply H1; reflexivity|apply H2; reflexivity].
Defined.

(** The discounts of the fall cart, kind by kind. *)
Lemma fall_discount_reciprocal (params : GetCostParams) :
  In reciprocal (fallDiscountKinds params) <->
  wantsFall params = true
  /\ discount params = Some reciprocal /\ (0 < fallCount params)%nat.
Proof.
  unfold fallDiscountKinds.
  destruct (wantsFall params); [|simpl; intuition discriminate].
  rewrite in_app_iff, In_selected.
  destruct (discount params) as [[| | |]|],
    (Nat.ltb_spec 0 (fallCount params)); simpl;
    intuition (discriminate || congruence || lia).
Qed.

(** C7: the fall cart has discounts only when it is not empty and has
    membership; then they are the reciprocal discount, present exactly when
    it is selected and the cart has a league, followed by what the family /
    student chain adds, the two being decided separately. *)
Theorem fall_discounts_gate (params : GetCostParams) :
  let f := fall (getCarts params) in
  cartDiscounts f =
    (if (0 <? List.length (cartItems f))%nat && hasItem membership f then
       (if isDiscount (discount params) reciprocal
           && (0 <? getLeagueCount f)%nat
        then [discounts reciprocal] else [])
       ++ (if isDiscount (discount params) family then [discounts family]
           else if isDiscount (discount params) student
                then [discounts student] else [])
     else [])
  /\ (In (discounts reciprocal) (cartDiscounts f) <->
      cartItems f <> [] /\ hasItem membership f = true
      /\ discount params = Some reciprocal /\ (0 < getLeagueCount f)%nat).
Proof.
  rewrite getCarts_closed. cbv zeta.
  unfold getLeagueCount. rewrite !hasItem_existsb.
  cbn [fall winter cartItems cartDiscounts].
  rewrite In_discounts, fall_discount_reciprocal.
  rewrite fall_hasMembership, fall_leagueCount.
  unfold fallDiscountKinds, selected.
  destruct (wantsFall params) eqn:Hw.
  - assert (Hk : exists ks, fallKinds params = membership :: ks).
    { unfold fallKinds. rewrite Hw. eexists. reflexivity. }
    destruct Hk as [ks ->].
    change (0 <? List.length (map items (membership :: ks)))%nat with true.
    split.
    + now destruct (isDiscount (discount params) reciprocal
                    && (0 <? fallCount params)%nat),
        (isDiscount (discount params) family),
        (isDiscount (discount params) student).
    + simpl. intuition discriminate.
  - rewrite andb_false_r. split; [reflexivity|intuition discriminate].
Qed.

(** C9: with no winter league and a winter request for day leagues or
    sparing, the winter cart is the membership (when the fall cart has
    none) and one ice item: the reduced one exactly when the fall cart has
    three leagues or more, the full-price one otherwise. *)
Theorem winter_ice_item (params : GetCostParams) :
  winterRegularLeagues params = 0%Z ->
  winterDayLeagues params || winterSpareOnly params = true ->
  let f := fall (getCarts params) in
  let w := winter (getCarts params) in
  cartItems w =
    (if hasItem membership f then [] else [items membership])
    ++ [items (if (3 <=? getLeagueCount f)%nat
               then basicIceReduced else basicIce)].
Proof.
  intros Hn Hd. rewrite getCarts_closed. cbv zeta.
  unfold getLeagueCount. rewrite !hasItem_existsb.
  cbn [fall winter cartItems cartDiscounts].
  rewrite fall_hasMembership, fall_leagueCount.
  unfold winterKinds, winterExtra, winterMembership, wantsWinter, winterCount,
    slotsFor.
  rewrite Hn, Hd.
  now destruct (wantsFall params), (3 <=? fallCount params)%nat.
Qed.

(** Day leagues only in both seasons: the fall cart has no league and the
    winter cart holds the full-price basic ice, not the reduced one. *)
Lemma winter_ice_item_witness :
  getLeagueCount (fall (getCarts dayLeaguesBoth)) = 0%nat
  /\ cartItems (winter (getCarts dayLeaguesBoth)) = [items basicIce].
Proof.
  split; [reflexivity|].
  exact (winter_ice_item dayLeaguesBoth eq_refl eq_refl).
Defined.

(** C4: the league items of the fall cart are the first named slots, in
    order, then additional leagues; those of the winter cart are the named
    slots the fall left, in order, then additional leagues.  Two leagues in
    each season give first and second in fall, third and additional in
    winter. *)
Theorem league_slots_shared :
  (forall params : GetCostParams,
     let k := Z.to_nat (fallRegularLeagues params) in
     let m := Z.to_nat (winterRegularLeagues params) in
     leagueItems (fall (getCarts params))
     = map items (firstn k [firstLeague; secondLeague; thirdLeague]
                  ++ repeat additionalLeague (k - 3))
     /\ leagueItems (winter (getCarts params))
        = map items (firstn m (skipn k [firstLeague; secondLeague; thirdLeague])
                     ++ repeat additionalLeague (m - (3 - k))))
  /\ cartItems (fall (getCarts twoAndTwo))
     = [items membership; items firstLeague; items secondLeague]
  /\ cartItems (winter (getCarts twoAndTwo))
     = [items thirdLeague; items additionalLeague].
Proof.
  split; [|split; reflexivity].
  intros params. rewrite getCarts_closed. cbv zeta.
  unfold leagueItems. cbn [fall winter cartItems].
  rewrite fall_leagueItems, winter_leagueItems.
  split; reflexivity.
Qed.

(** ** Properties of the benefit resolver *)

Lemma In_pushIf (x : Benefit) (b : bool) (xs l : list Benefit) :
  In x (pushIf b xs l) <-> In x l \/ (b = true /\ In x xs).
Proof.
  unfold pushIf. destruct b.
  - rewrite in_app_iff. intuition.
  - intuition discriminate.
Qed.

(** C8: [dues] is in the annual list exactly when one of the carts has
    membership and neither carries a discount named as the reciprocal one. *)
Theorem dues_iff (fallCart winterCart : Cart) :
  In dues (bAnnual (getBenefits fallCart winterCart)) <->
  hasItem membership fallCart || hasItem membership winterCart = true
  /\ someReciprocal fallCart = false
  /\ someReciprocal winterCart = false.
Proof.
  unfold getBenefits. cbn [bAnnual].
  rewrite !In_pushIf.
  destruct (hasItem membership fallCart || hasItem membership winterCart).
  - rewrite in_app_iff, !In_pushIf.
    destruct (someReciprocal fallCart), (someReciprocal winterCart); simpl;
      intuition (discriminate || congruence).
  - rewrite In_pushIf. simpl. intuition (discriminate || congruence).
Qed.

(** C10: [hasItem] cannot tell the two basic-ice items apart, and a winter
    cart whose only item is the reduced basic ice gets the whole seasonal
    list, whatever the fall cart and the discounts are. *)
Theorem basicIce_names_coincide :
  (forall c : Cart, hasItem basicIce c = hasItem basicIceReduced c)
  /\ (forall (fallCart : Cart) (ds : list Discount),
        hasItem basicIce (mkCart [items basicIceReduced] ds) = true
        /\ bWinter (getBenefits fallCart (mkCart [items basicIceReduced] ds))
           = [buildingAccess; ice; daytime; sparing; rentals; training]).
Proof.
  split; [reflexivity|].
  intros fallCart ds. split; reflexivity.
Qed.

(** * Further properties *)

(** ** Carts built by calls: lookup and league count *)

Lemma sameName_cases (k k' : ItemType) :
  sameName k (items k') = true <->
  k' = k \/ (k = basicIce /\ k' = basicIceReduced)
  \/ (k = basicIceReduced /\ k' = basicIce).
Proof.
  destruct k, k'; simpl; split; intros H;
    try reflexivity; try discriminate H; auto;
    destruct H as [H|[[H1 H2]|[H1 H2]]]; discriminate.
Qed.

(** X1: [hasItem] after any sequence of calls: the kind was added, or it is one
    of the two basic-ice kinds and the other one was added. *)
Theorem hasItem_runCalls (k : ItemType) (ops : list CartCall) :
  hasItem k (runCalls ops) = true <->
  In k (itemsOf ops)
  \/ (k = basicIce /\ In basicIceReduced (itemsOf ops))
  \/ (k = basicIceReduced /\ In basicIce (itemsOf ops)).
Proof.
  rewrite hasItem_existsb, cartItems_runCalls, existsb_exists. split.
  - intros [i [Hi Hs]]. apply in_map_iff in Hi as [k' [<- Hk']].
    apply sameName_cases in Hs as [->|[[-> ->]|[-> ->]]]; auto.
  - intros H.
    assert (Hk : exists k', In k' (itemsOf ops) /\ sameName k (items k') = true).
    { destruct H as [H|[[-> H]|[-> H]]]; eexists; (split; [exact H|]).
      - apply sameName_cases. now left.
      - reflexivity.
      - reflexivity. }
    destruct Hk as [k' [Hin Hs]]. exists (items k'). split; [|exact Hs].
    now apply in_map.
Qed.

Lemma isLeague_isSlot (k : ItemType) : isLeague (items k) = isSlot k.
Proof. now destruct k. Qed.

Lemma filter_isLeague_items (ks : list ItemType) :
  filter isLeague (map items ks) = map items (filter isSlot ks).
Proof.
  induction ks as [|k ks IH]; simpl; [reflexivity|].
  rewrite isLeague_isSlot, IH. now destruct (isSlot k).
Qed.

(** X2: [getLeagueCount] after any sequence of calls is the number of calls that
    added one of the four league kinds; membership, basic ice, social and
    the discounts do not count. *)
Theorem getLeagueCount_runCalls (ops : list CartCall) :
  getLeagueCount (runCalls ops) = List.length (filter isSlot (itemsOf ops)).
Proof.
  unfold getLeagueCount.
  now rewrite cartItems_runCalls, filter_isLeague_items, length_map.
Qed.

(** ** The total: sign, and the effect of one more call *)

Local Open Scope Q_scope.

Lemma factor_positive (k : DiscountType) :
  0 < 1 - discountAmount (discounts k) / 100.
Proof. now destruct k. Qed.

(** The factors of catalog discounts are positive, so is their product. *)
Lemma productFactors_positive (f : Discount -> bool) (ks : list DiscountType) :
  0 < productFactors (filter f (map discounts ks)).
Proof.
  induction ks as [|k ks IH]; simpl; [reflexivity|].
  destruct (f (discounts k)); [|exact IH].
  simpl. apply Qmult_lt_0_compat; [apply factor_positive|exact IH].
Qed.

Lemma product_sign (x p : Q) :
  0 < p -> (x * p < 0 <-> x < 0) /\ (x * p == 0 <-> x == 0).
Proof.
  intros Hp. split.
  - rewrite <- (Qmult_lt_r (x * p) 0 (/ p)) by now apply Qinv_lt_0_compat.
    assert (E : x * p * / p == x) by (field; intros E; rewrite E in Hp; discriminate).
    rewrite E, Qmult_0_l. reflexivity.
  - split; intros H.
    + apply Qmult_integral in H as [H|H]; [exact H|].
      rewrite H in Hp. discriminate.
    + rewrite H. ring.
Qed.

(** X3: whatever the calls, the total is negative exactly when the absolute
    discounts of the cart add up to more than its items, and zero exactly
    when the two sums are equal: nothing clamps it at zero. *)
Theorem getTotal_sign (ops : list CartCall) :
  let c := runCalls ops in
  let raw := sumCosts (cartItems c) in
  let off := sumAmounts (filter isAbsolute (cartDiscounts c)) in
  (getTotal c < 0 <-> raw < off) /\ (getTotal c == 0 <-> raw == off).
Proof.
  cbv zeta. rewrite getTotal_runCalls. unfold specTotal.
  rewrite cartDiscounts_runCalls, filter_absolute_byStrategy,
    filter_percentage_byStrategy.
  destruct (product_sign
              (sumCosts (cartItems (runCalls ops))
               - sumAmounts (filter isAbsolute (map discounts (discountsOf ops))))
              _ (productFactors_positive isPercentage (discountsOf ops)))
    as [Hlt Heq].
  rewrite Hlt, Heq. split.
  - rewrite (Qlt_minus_iff (sumCosts _) (sumAmounts _)).
    rewrite (Qlt_minus_iff (_ - _) 0).
    setoid_replace
      (0 + - (sumCosts (cartItems (runCalls ops))
              - sumAmounts (filter isAbsolute (map discounts (discountsOf ops)))))
      with (sumAmounts (filter isAbsolute (map discounts (discountsOf ops)))
            + - sumCosts (cartItems (runCalls ops))) by ring.
    reflexivity.
  - split; intros H.
    + rewrite <- (Qplus_0_l (sumAmounts _)), <- H. ring.
    + rewrite H. ring.
Qed.

Local Close Scope Q_scope.

(** X4: one more call on a cart built by calls, on doubles.  A percentage
    discount multiplies the total by its factor.  An item is added to the
    item sum and an absolute discount is taken off after the other absolute
    ones, in both cases before any percentage factor applies, even when
    percentage discounts were added earlier. *)
Theorem getTotalDouble_after_call (ops : list CartCall) :
  let c := runCalls ops in
  let added := map discounts (discountsOf ops) in
  let raw := itemTotalDouble (map items (itemsOf ops)) in
  (forall k : ItemType,
     getTotalDouble (addItem k c)
     = timesPercentage (filter isPercentage added)
         (lessAbsolute (filter isAbsolute added)
            (toDouble (cost (items k)) + raw)%float))
  /\ (forall k : DiscountType,
        getTotalDouble (addDiscount k c)
        = match discountStrategy (discounts k) with
          | absolute =>
              timesPercentage (filter isPercentage added)
                (lessAbsolute (filter isAbsolute added) raw
                 - toDouble (discountAmount (discounts k)))%float
          | percentage =>
              (getTotalDouble c
               * (1 - toDouble (discountAmount (discounts k)) / 100))%float
          end).
Proof.
  cbv zeta. split; intros k.
  - change (addItem k (runCalls ops)) with (call (runCalls ops) (AddItem k)).
    rewrite <- runCalls_snoc, getTotalDouble_runCalls.
    rewrite itemsOf_app, discountsOf_app, (map_app items).
    change (discountsOf [AddItem k]) with (@nil DiscountType).
    rewrite app_nil_r.
    unfold itemTotalDouble. now rewrite fold_left_app.
  - change (addDiscount k (runCalls ops))
      with (call (runCalls ops) (AddDiscount k)).
    rewrite <- runCalls_snoc, !getTotalDouble_runCalls.
    rewrite itemsOf_app, discountsOf_app, !map_app, !filter_app.
    change (itemsOf [AddDiscount k]) with (@nil ItemType).
    rewrite app_nil_r.
    unfold lessAbsolute, timesPercentage. rewrite !fold_left_app.
    now destruct k.
Qed.

(** ** The enrollment resolver: what each cart holds *)

Lemma filter_existsb_false {A : Type} (f : A -> bool) (l : list A) :
  existsb f l = false -> filter f l = [].
Proof.
  induction l as [|x l IH]; simpl; [reflexivity|].
  intros H. apply orb_false_iff in H as [-> H]. now apply IH.
Qed.

Lemma fallExtra_cases (params : GetCostParams) :
  fallExtra params = [] \/ fallExtra params = [basicIce]
  \/ fallExtra params = [social].
Proof.
  unfold fallExtra.
  destruct (fallRegularLeagues params =? 0)%Z,
    (fallDayLeagues params || fallSpareOnly params),
    (isSocial (fallSocial params) sNoDues); auto.
Qed.

Lemma winterExtra_cases (params : GetCostParams) :
  winterExtra params = [] \/ winterExtra params = [basicIce]
  \/ winterExtra params = [basicIceReduced] \/ winterExtra params = [social].
Proof.
  unfold winterExtra.
  destruct (winterRegularLeagues params =? 0)%Z,
    (winterDayLeagues params || winterSpareOnly params),
    (3 <=? fallCount params)%nat,
    (isSocial (winterSocial params) sNoDues
     && negb (existsb (sameName social) (map items (fallKinds params)))
     && negb (wantsFall params)); auto.
Qed.

Lemma fall_memberships (params : GetCostParams) :
  filter (sameName membership) (map items (fallKinds params))
  = if wantsFall params then [items membership] else [].
Proof.
  unfold fallKinds. rewrite !map_app, !filter_app.
  rewrite (filter_existsb_false _ (map items (slotsFor _ _)))
    by (apply slots_not_named; [reflexivity|apply slotsFor_isSlot]).
  destruct (fallExtra_cases params) as [-> | [-> | ->]], (wantsFall params);
    reflexivity.
Qed.

Lemma winter_memberships (params : GetCostParams) :
  filter (sameName membership) (map items (winterKinds params))
  = if winterMembership params then [items membership] else [].
Proof.
  unfold winterKinds. rewrite !map_app, !filter_app.
  rewrite (filter_existsb_false _ (map items (slotsFor _ _)))
    by (apply slots_not_named; [reflexivity|apply slotsFor_isSlot]).
  destruct (winterExtra_cases params) as [-> | [-> | [-> | ->]]],
    (winterMembership params); reflexivity.
Qed.

(** X5: the membership is bought once a year: the fall cart has it exactly when
    the fall selection asks for day leagues, sparing, a league or social
    with dues; the winter cart exactly when the fall cart has none and the
    winter selection asks for one of these; and the two carts together
    never hold more than one membership item. *)
Theorem membership_once (params : GetCostParams) :
  let f := fall (getCarts params) in
  let w := winter (getCarts params) in
  hasItem membership f
  = (fallDayLeagues params || fallSpareOnly params
     || (0 <? fallRegularLeagues params)%Z
     || isSocial (fallSocial params) sDues)
  /\ hasItem membership w
     = (negb (hasItem membership f)
        && (winterDayLeagues params || winterSpareOnly params
            || (0 <? winterRegularLeagues params)%Z
            || isSocial (winterSocial params) sDues))
  /\ List.length (filter (sameName membership) (cartItems f ++ cartItems w))
     = (if hasItem membership f || hasItem membership w then 1 else 0)%nat.
Proof.
  rewrite getCarts_closed. cbv zeta.
  rewrite !hasItem_existsb. cbn [fall winter cartItems].
  rewrite filter_app, fall_memberships, winter_memberships.
  rewrite fall_hasMembership, winter_hasMembership.
  unfold winterMembership.
  split; [reflexivity|]. split; [reflexivity|].
  now destruct (wantsFall params), (wantsWinter params).
Qed.

Lemma fall_hasIce (params : GetCostParams) :
  existsb (sameName basicIce) (map items (fallKinds params))
  = ((fallRegularLeagues params =? 0)%Z
     && (fallDayLeagues params || fallSpareOnly params)).
Proof.
  unfold fallKinds, fallExtra. rewrite !map_app, !existsb_app.
  rewrite (slots_not_named basicIce (slotsFor _ _))
    by (reflexivity || apply slotsFor_isSlot).
  now destruct (wantsFall params), (fallRegularLeagues params =? 0)%Z,
    (fallDayLeagues params || fallSpareOnly params),
    (isSocial (fallSocial params) sNoDues).
Qed.

Lemma fall_hasSocial (params : GetCostParams) :
  existsb (sameName social) (map items (fallKinds params))
  = ((fallRegularLeagues params =? 0)%Z
     && negb (fallDayLeagues params || fallSpareOnly params)
     && isSocial (fallSocial params) sNoDues).
Proof.
  unfold fallKinds, fallExtra. rewrite !map_app, !existsb_app.
  rewrite (slots_not_named social (slotsFor _ _))
    by (reflexivity || apply slotsFor_isSlot).
  now destruct (wantsFall params), (fallRegularLeagues params =? 0)%Z,
    (fallDayLeagues params || fallSpareOnly params),
    (isSocial (fallSocial params) sNoDues).
Qed.

Lemma winter_hasIce (params : GetCostParams) :
  existsb (sameName basicIce) (map items (winterKinds params))
  = ((winterRegularLeagues params =? 0)%Z
     && (winterDayLeagues params || winterSpareOnly params)).
Proof.
  unfold winterKinds, winterExtra. rewrite !map_app, !existsb_app.
  rewrite (slots_not_named basicIce (slotsFor _ _))
    by (reflexivity || apply slotsFor_isSlot).
  now destruct (winterMembership params), (winterRegularLeagues params =? 0)%Z,
    (winterDayLeagues params || winterSpareOnly params),
    (3 <=? fallCount params)%nat,
    (isSocial (winterSocial params) sNoDues
     && negb (existsb (sameName social) (map items (fallKinds params)))
     && negb (wantsFall params)).
Qed.

Lemma winter_hasSocial (params : GetCostParams) :
  existsb (sameName social) (map items (winterKinds params))
  = ((winterRegularLeagues params =? 0)%Z
     && negb (winterDayLeagues params || winterSpareOnly params)
     && isSocial (winterSocial params) sNoDues
     && negb (existsb (sameName social) (map items (fallKinds params)))
     && negb (wantsFall params)).
Proof.
  unfold winterKinds, winterExtra. rewrite !map_app, !existsb_app.
  rewrite (slots_not_named social (slotsFor _ _))
    by (reflexivity || apply slotsFor_isSlot).
  now destruct (winterMembership params), (winterRegularLeagues params =? 0)%Z,
    (winterDayLeagues params || winterSpareOnly params),
    (3 <=? fallCount params)%nat,
    (isSocial (winterSocial params) sNoDues),
    (existsb (sameName social) (map items (fallKinds params))),
    (wantsFall params).
Qed.

(** X6: each cart has as many leagues as its season asks for (none for a
    negative number), and a basic-ice item exactly when the season asks for
    no league and for day leagues or sparing; so no cart holds both a league
    and a basic-ice item. *)
Theorem leagues_or_ice (params : GetCostParams) :
  let f := fall (getCarts params) in
  let w := winter (getCarts params) in
  getLeagueCount f = Z.to_nat (fallRegularLeagues params)
  /\ getLeagueCount w = Z.to_nat (winterRegularLeagues params)
  /\ hasItem basicIce f
     = ((fallRegularLeagues params =? 0)%Z
        && (fallDayLeagues params || fallSpareOnly params))
  /\ hasItem basicIce w
     = ((winterRegularLeagues params =? 0)%Z
        && (winterDayLeagues params || winterSpareOnly params))
  /\ (getLeagueCount f = 0%nat \/ hasItem basicIce f = false)
  /\ (getLeagueCount w = 0%nat \/ hasItem basicIce w = false).
Proof.
  rewrite getCarts_closed. cbv zeta.
  unfold getLeagueCount. rewrite !hasItem_existsb. cbn [fall winter cartItems].
  rewrite fall_leagueCount, winter_leagueCount, fall_hasIce, winter_hasIce.
  unfold fallCount, winterCount.
  repeat split.
  - destruct (Z.eqb_spec (fallRegularLeagues params) 0) as [->|_]; auto.
  - destruct (Z.eqb_spec (winterRegularLeagues params) 0) as [->|_]; auto.
Qed.

(** X7: a fall cart with the social item is that item alone, at full price:
    the fall discounts need a membership. *)
Theorem fall_social_alone (params : GetCostParams) :
  hasItem social (fall (getCarts params)) = true ->
  fall (getCarts params) = mkCart [items social] [].
Proof.
  rewrite getCarts_closed. cbn [fall].
  rewrite hasItem_existsb. cbn [cartItems]. rewrite fall_hasSocial.
  intros H. apply andb_true_iff in H as [H Hs].
  apply andb_true_iff in H as [Hn Hd]. apply negb_true_iff in Hd.
  assert (Hw : wantsFall params = false).
  { unfold wantsFall. rewrite Hd. apply Z.eqb_eq in Hn. rewrite Hn.
    now destruct (fallSocial params) as [[|]|]. }
  unfold fallDiscountKinds, fallKinds, fallExtra, fallCount.
  rewrite Hw, Hn, Hd, Hs. apply Z.eqb_eq in Hn. now rewrite Hn.
Qed.

Lemma fall_social_alone_witness :
  fall (getCarts (mkParams 0 false false (Some sNoDues) 0 false false None
                           (Some family)))
  = mkCart [items social] [].
Proof.
  apply (fall_social_alone
           (mkParams 0 false false (Some sNoDues) 0 false false None
                     (Some family))).
  reflexivity.
Defined.

(** X8: a winter cart with the social item is that item alone, next to an empty
    fall cart; unlike in fall, the selected family or student discount is
    applied to it. *)
Theorem winter_social_discounted (params : GetCostParams) :
  hasItem social (winter (getCarts params)) = true ->
  fall (getCarts params) = newCart
  /\ cartItems (winter (getCarts params)) = [items social]
  /\ cartDiscounts (winter (getCarts params))
     = (if isDiscount (discount params) family then [discounts family]
        else if isDiscount (discount params) student then [discounts student]
             else []).
Proof.
  rewrite getCarts_closed. cbn [fall winter].
  rewrite hasItem_existsb. cbn [cartItems cartDiscounts].
  rewrite winter_hasSocial, fall_hasSocial.
  intros H. apply andb_true_iff in H as [H Hw]. apply negb_true_iff in Hw.
  apply andb_true_iff in H as [H Hfs]. apply negb_true_iff in Hfs.
  apply andb_true_iff in H as [H Hs].
  apply andb_true_iff in H as [Hn Hd]. apply negb_true_iff in Hd.
  destruct (wantsFall_false _ Hw) as [Hfn Hfd].
  assert (Hww : wantsWinter params = false).
  { unfold wantsWinter. rewrite Hd. apply Z.eqb_eq in Hn. rewrite Hn.
    now destruct (winterSocial params) as [[|]|]. }
  assert (Hfe : fallExtra params = []).
  { revert Hfs. unfold fallExtra. rewrite Hfd.
    now destruct (fallRegularLeagues params =? 0)%Z,
      (isSocial (fallSocial params) sNoDues). }
  assert (Hwk : winterKinds params = [social]).
  { unfold winterKinds, winterExtra, winterMembership, winterCount.
    rewrite Hw, Hww, Hn, Hd, Hs, fall_hasSocial, Hfs, Hfn.
    apply Z.eqb_eq in Hn. now rewrite Hn. }
  unfold fallDiscountKinds, winterDiscountKinds, fallKinds, winterMembership,
    selected.
  rewrite Hwk, Hw, Hww, Hfn, Hfe. split; [reflexivity|]. split; [reflexivity|].
  now destruct (discount params) as [[| | |]|].
Qed.

Lemma winter_social_discounted_witness :
  let p := mkParams 0 false false None 0 false false (Some sNoDues)
                    (Some family) in
  fall (getCarts p) = newCart
  /\ cartItems (winter (getCarts p)) = [items social]
  /\ cartDiscounts (winter (getCarts p)) = [discounts family].
Proof.
  apply (winter_social_discounted
           (mkParams 0 false false None 0 false false (Some sNoDues)
                     (Some family))).
  reflexivity.
Defined.

(** X9: the fall cart has at most one discount and never the winter-only one,
    the winter cart at most two, of which at most one is a percentage; the
    reciprocal discount is never applied in both seasons; and an empty cart
    has no discount. *)
Theorem discounts_bounds (params : GetCostParams) :
  let f := fall (getCarts params) in
  let w := winter (getCarts params) in
  (List.length (cartDiscounts f) <= 1)%nat
  /\ (List.length (cartDiscounts w) <= 2)%nat
  /\ (List.length (filter isPercentage (cartDiscounts w)) <= 1)%nat
  /\ ~ In (discounts winterOnly) (cartDiscounts f)
  /\ someReciprocal f && someReciprocal w = false
  /\ (cartDiscounts f = [] \/ cartItems f <> [])
  /\ (cartDiscounts w = [] \/ cartItems w <> []).
Proof.
  rewrite getCarts_closed. cbv zeta. unfold someReciprocal, getDiscounts.
  cbn [fall winter cartItems cartDiscounts].
  assert (Hf : fallDiscountKinds params = [] \/
               wantsFall params = true /\
               (fallDiscountKinds params = [reciprocal]
                \/ fallDiscountKinds params = [family]
                \/ fallDiscountKinds params = [student])).
  { unfold fallDiscountKinds, selected.
    destruct (wantsFall params), (discount params) as [[| | |]|],
      (0 <? fallCount params)%nat; simpl; auto. }
  assert (Hfk : wantsFall params = true -> map items (fallKinds params) <> []).
  { unfold fallKinds. now intros ->. }
  assert (Hw : winterDiscountKinds params = [] \/
               winterKinds params <> [] /\
               ((wantsFall params = false /\
                 (winterDiscountKinds params = [winterOnly]
                  \/ winterDiscountKinds params = [winterOnly; reciprocal]
                  \/ winterDiscountKinds params = [winterOnly; family]
                  \/ winterDiscountKinds params = [winterOnly; student]))
                \/ winterDiscountKinds params = [family]
                \/ winterDiscountKinds params = [student])).
  { unfold winterDiscountKinds, selected.
    destruct (winterKinds params) as [|k ks] eqn:Hk.
    - destruct (winterKinds_nil _ Hk) as [-> _]. now left.
    - unfold winterMembership.
      destruct (wantsFall params), (wantsWinter params),
        (discount params) as [[| | |]|], (0 <? winterCount params)%nat;
        simpl; auto 10; right; (split; [discriminate|auto 10]). }
  assert (Hwk : winterKinds params <> [] -> map items (winterKinds params) <> []).
  { now destruct (winterKinds params). }
  destruct Hf as [-> | [Hwf [-> | [-> | ->]]]];
    destruct Hw as [-> | [Hk [[Hnf [-> | [-> | [-> | ->]]]] | [-> | ->]]]];
    simpl; repeat split; auto; try lia; try congruence;
    intuition discriminate.
Qed.

(** ** The enrollment resolver: what does not matter *)

(** X10: the discount selected never changes what is bought: the items of both
    carts are those of the same selection with any other discount. *)
Theorem items_ignore_discount (params : GetCostParams)
    (d : option DiscountType) :
  cartItems (fall (getCarts (setDiscount d params)))
  = cartItems (fall (getCarts params))
  /\ cartItems (winter (getCarts (setDiscount d params)))
     = cartItems (winter (getCarts params)).
Proof.
  rewrite !getCarts_closed. cbn [fall winter cartItems].
  split; reflexivity.
Qed.

(** X11: the fall cart is settled before the winter selection is read: two
    selections that differ only in their winter part have the same fall
    cart. *)
Theorem fall_ignores_winter (fl : Z) (fd fs : bool) (fso : option SocialType)
    (d : option DiscountType)
    (wl wl' : Z) (wd ws wd' ws' : bool) (wso wso' : option SocialType) :
  fall (getCarts (mkParams fl fd fs fso wl wd ws wso d))
  = fall (getCarts (mkParams fl fd fs fso wl' wd' ws' wso' d)).
Proof.
  rewrite !getCarts_closed. reflexivity.
Qed.

(** ** The enrollment resolver: totals *)

Local Open Scope Q_scope.

Lemma sumCosts_nonneg (ks : list ItemType) : 0 <= sumCosts (map items ks).
Proof.
  induction ks as [|k ks IH]; simpl; [discriminate|].
  assert (0 <= cost (items k)) by (destruct k; discriminate).
  lra.
Qed.

Lemma sumCosts_positive (ks : list ItemType) :
  ks <> [] -> 0 < sumCosts (map items ks).
Proof.
  destruct ks as [|k ks]; [congruence|]. intros _. simpl.
  assert (0 < cost (items k)) by (destruct k; reflexivity).
  pose proof (sumCosts_nonneg ks). lra.
Qed.

Lemma sumCosts_membership (ks : list ItemType) :
  135 <= sumCosts (map items (membership :: ks)).
Proof. simpl. pose proof (sumCosts_nonneg ks). lra. Qed.

(** A cart of catalog items and sorted catalog discounts whose absolute
    discounts stay below the item costs has a positive total. *)
Lemma getTotal_kinds_positive (ks : list ItemType) (ds : list DiscountType) :
  byStrategy (map discounts ds) = map discounts ds ->
  sumAmounts (filter isAbsolute (map discounts ds)) < sumCosts (map items ks) ->
  0 < getTotal (mkCart (map items ks) (map discounts ds)).
Proof.
  intros Hs Hlt.
  rewrite getTotal_sorted by (symmetry; exact Hs).
  unfold specTotal. cbn [cartItems cartDiscounts].
  apply Qmult_lt_0_compat; [lra|apply productFactors_positive].
Qed.

Lemma payable_total (ks : list ItemType) (ds : list DiscountType) :
  payable ks ds ->
  let c := mkCart (map items ks) (map discounts ds) in
  (cartItems c = [] /\ getTotal c == 0) \/ (cartItems c <> [] /\ 0 < getTotal c).
Proof.
  intros [[-> ->]|[Hk [Hs Hlt]]]; cbv zeta.
  - left. split; reflexivity.
  - right. split; [now destruct ks|now apply getTotal_kinds_positive].
Qed.

Lemma fall_payable (params : GetCostParams) :
  payable (fallKinds params) (fallDiscountKinds params).
Proof.
  unfold payable, fallDiscountKinds, selected.
  destruct (wantsFall params) eqn:Hw.
  - right. unfold fallKinds. rewrite Hw.
    split; [discriminate|].
    pose proof (sumCosts_membership
                  (slotsFor 0 (fallCount params) ++ fallExtra params)) as Hm.
    change ([membership] ++ slotsFor 0 (fallCount params) ++ fallExtra params)
      with (membership :: slotsFor 0 (fallCount params) ++ fallExtra params).
    destruct (discount params) as [[| | |]|], (0 <? fallCount params)%nat;
      (split; [reflexivity|]); cbn [map filter app sumAmounts fold_right discounts
                                     isAbsolute discountStrategy discountAmount
                                     andb isDiscount];
      cbn [map] in Hm; lra.
  - destruct (wantsFall_false _ Hw) as [Hn _].
    unfold fallKinds. rewrite Hw, Hn.
    destruct (fallExtra_cases params) as [-> | [-> | ->]].
    + now left.
    + right. split; [discriminate|]. split; reflexivity.
    + right. split; [discriminate|]. split; reflexivity.
Qed.

Lemma winter_payable (params : GetCostParams) :
  payable (winterKinds params) (winterDiscountKinds params).
Proof.
  unfold payable, winterDiscountKinds, selected.
  destruct (winterMembership params) eqn:Hm.
  - right. unfold winterKinds. rewrite Hm.
    split; [discriminate|].
    pose proof (sumCosts_membership
                  (slotsFor (fallCount params) (winterCount params)
                   ++ winterExtra params)) as Hs.
    cbn [map] in Hs.
    change ([membership] ++ slotsFor (fallCount params) (winterCount params)
            ++ winterExtra params)
      with (membership :: slotsFor (fallCount params) (winterCount params)
            ++ winterExtra params).
    cbv iota.
    destruct (discount params) as [[| | |]|], (0 <? winterCount params)%nat;
      (split; [reflexivity|]); cbn [map filter app sumAmounts fold_right discounts
                                     isAbsolute discountStrategy discountAmount
                                     andb isDiscount];
      lra.
  - destruct (winterKinds params) as [|k ks] eqn:Hk; [now left|].
    right. split; [discriminate|].
    pose proof (sumCosts_positive (k :: ks)) as Hs.
    assert (0 < sumCosts (map items (k :: ks))) as Hpos
      by (apply Hs; discriminate).
    rewrite andb_false_r, andb_false_l.
    destruct (discount params) as [[| | |]|];
      (split; [reflexivity|]); exact Hpos.
Qed.

(** X12: the total of a cart [getCarts] returns is never negative: it is zero
    for an empty cart and positive for any other, whatever the discounts. *)
Theorem totals_positive (params : GetCostParams) :
  let f := fall (getCarts params) in
  let w := winter (getCarts params) in
  ((cartItems f = [] /\ getTotal f == 0) \/ (cartItems f <> [] /\ 0 < getTotal f))
  /\ ((cartItems w = [] /\ getTotal w == 0)
      \/ (cartItems w <> [] /\ 0 < getTotal w)).
Proof.
  rewrite getCarts_closed. cbv zeta. cbn [fall winter]. split.
  - apply (payable_total _ _ (fall_payable params)).
  - apply (payable_total _ _ (winter_payable params)).
Qed.

Local Close Scope Q_scope.

(** ** The benefit resolver, for any two carts *)

(** X13: the fall and the winter list are empty, or the six access benefits, or
    these followed by [leagues]: the leagues benefit never comes without
    the access to the ice.  The bonspiel benefit is in the annual list
    exactly when one of the two lists is not empty. *)
Theorem seasonal_benefits (fallCart winterCart : Cart) :
  let b := getBenefits fallCart winterCart in
  (bFall b = [] \/ bFall b = seasonal \/ bFall b = seasonal ++ [leagues])
  /\ (bWinter b = [] \/ bWinter b = seasonal
      \/ bWinter b = seasonal ++ [leagues])
  /\ (In clubSpiel (bAnnual b) <-> bFall b <> [] \/ bWinter b <> []).
Proof.
  unfold getBenefits. cbn [bFall bWinter bAnnual].
  rewrite !In_pushIf.
  assert (Hc : ~ In clubSpiel
                 (if hasItem membership fallCart || hasItem membership winterCart
                  then
                    pushIf (negb (someReciprocal fallCart)
                            && negb (someReciprocal winterCart)) [dues]
                      (pushIf (hasItem social fallCart || hasItem social winterCart
                               || hasItem membership fallCart
                               || hasItem membership winterCart)
                              [roster; bSocial; agm; bartending] []) ++ [voting]
                  else
                    pushIf (hasItem social fallCart || hasItem social winterCart
                            || hasItem membership fallCart
                            || hasItem membership winterCart)
                           [roster; bSocial; agm; bartending] [])).
  { destruct (hasItem membership fallCart || hasItem membership winterCart);
      rewrite ?in_app_iff, !In_pushIf; simpl; intuition discriminate. }
  destruct (hasItem basicIce fallCart), (hasItem basicIce winterCart),
    (0 <? getLeagueCount fallCart)%nat, (0 <? getLeagueCount winterCart)%nat;
    cbn [pushIf orb app];
    (split; [auto|split; [auto|]]);
    (split;
     [ intros [[H|[H _]]|[_ [H|[]]]];
       [ contradiction | try discriminate H | discriminate H ];
       first [ left; discriminate | right; discriminate ]
     | intros [H|H]; try congruence;
       left; right; (split; [reflexivity|now left]) ]).
Qed.

(** X14: the annual list never repeats a benefit and holds only the eight annual
    keys (never the name tag); [dues] comes only with [voting], and
    [voting] only with the four benefits that start with [roster]. *)
Theorem annual_benefits (fallCart winterCart : Cart) :
  let a := bAnnual (getBenefits fallCart winterCart) in
  NoDup a
  /\ incl a [roster; bSocial; agm; bartending; dues; voting; clubSpiel; none]
  /\ (In dues a -> In voting a)
  /\ (In voting a ->
      In roster a /\ In bSocial a /\ In agm a /\ In bartending a).
Proof.
  unfold getBenefits. cbn [bAnnual].
  generalize (negb (someReciprocal fallCart) && negb (someReciprocal winterCart)).
  generalize (hasItem basicIce fallCart || (0 <? getLeagueCount fallCart)%nat
              || (hasItem basicIce winterCart
                  || (0 <? getLeagueCount winterCart)%nat)).
  generalize (Qeq_bool (getTotal fallCart) 0 && Qeq_bool (getTotal winterCart) 0).
  intros z i r.
  destruct (hasItem social fallCart), (hasItem social winterCart),
    (hasItem membership fallCart), (hasItem membership winterCart), z, i, r;
    cbn [pushIf orb app]; (split; [|split; [|split]]).
  all: try (repeat constructor; simpl; intuition discriminate).
  all: try (intros x Hx; simpl in *; intuition).
  all: simpl; intuition discriminate.
Qed.

(** ** The benefits of a selection *)

Lemma to_nat_positive (n : Z) : (0 <? Z.to_nat n)%nat = (0 <? n)%Z.
Proof.
  destruct (Z.ltb_spec 0 n), (Nat.ltb_spec 0 (Z.to_nat n)); lia.
Qed.

(** X15: the fall list of a selection has the six access benefits when the
    season asks for day leagues or sparing with no league, or for a league,
    and [leagues] when it asks for a league; the same for winter, where the
    reduced basic ice counts as basic ice. *)
Theorem benefits_of_selection (params : GetCostParams) :
  let c := getCarts params in
  let b := getBenefits (fall c) (winter c) in
  bFall b
  = (if (fallRegularLeagues params =? 0)%Z
        && (fallDayLeagues params || fallSpareOnly params)
        || (0 <? fallRegularLeagues params)%Z
     then seasonal else [])
    ++ (if (0 <? fallRegularLeagues params)%Z then [leagues] else [])
  /\ bWinter b
     = (if (winterRegularLeagues params =? 0)%Z
           && (winterDayLeagues params || winterSpareOnly params)
           || (0 <? winterRegularLeagues params)%Z
        then seasonal else [])
       ++ (if (0 <? winterRegularLeagues params)%Z then [leagues] else []).
Proof.
  rewrite getCarts_closed. cbv zeta. unfold getBenefits.
  cbn [bFall bWinter fall winter].
  unfold getLeagueCount. rewrite !hasItem_existsb. cbn [cartItems].
  rewrite fall_hasIce, winter_hasIce, fall_leagueCount, winter_leagueCount.
  unfold fallCount, winterCount. rewrite !to_nat_positive.
  now destruct ((fallRegularLeagues params =? 0)%Z
                && (fallDayLeagues params || fallSpareOnly params)),
    ((winterRegularLeagues params =? 0)%Z
     && (winterDayLeagues params || winterSpareOnly params)),
    (0 <? fallRegularLeagues params)%Z, (0 <? winterRegularLeagues params)%Z.
Qed.

Lemma fall_someReciprocal (params : GetCostParams) :
  existsb (fun d => String.eqb (dname d) "Reciprocal member discount")
          (map discounts (fallDiscountKinds params))
  = wantsFall params && isDiscount (discount params) reciprocal
    && (0 <? fallRegularLeagues params)%Z.
Proof.
  rewrite <- to_nat_positive. fold (fallCount params).
  unfold fallDiscountKinds, selected.
  now destruct (wantsFall params), (discount params) as [[| | |]|],
    (0 <? fallCount params)%nat.
Qed.

Lemma winter_someReciprocal (params : GetCostParams) :
  existsb (fun d => String.eqb (dname d) "Reciprocal member discount")
          (map discounts (winterDiscountKinds params))
  = winterMembership params && isDiscount (discount params) reciprocal
    && (0 <? winterRegularLeagues params)%Z.
Proof.
  rewrite <- to_nat_positive. fold (winterCount params).
  unfold winterDiscountKinds, selected.
  destruct (winterKinds params) as [|k ks] eqn:Hk.
  - destruct (winterKinds_nil _ Hk) as [-> _]. reflexivity.
  - now destruct (winterMembership params), (discount params) as [[| | |]|],
      (0 <? winterCount params)%nat.
Qed.

Lemma In_annual (x : Benefit) (fallCart winterCart : Cart) :
  In x (bAnnual (getBenefits fallCart winterCart)) <->
  match x with
  | roster | bSocial | agm | bartending =>
      hasItem social fallCart || hasItem social winterCart
      || hasItem membership fallCart || hasItem membership winterCart = true
  | dues =>
      (hasItem membership fallCart || hasItem membership winterCart)
      && (negb (someReciprocal fallCart) && negb (someReciprocal winterCart))
      = true
  | voting => hasItem membership fallCart || hasItem membership winterCart = true
  | clubSpiel =>
      hasItem basicIce fallCart || (0 <? getLeagueCount fallCart)%nat
      || (hasItem basicIce winterCart || (0 <? getLeagueCount winterCart)%nat)
      = true
  | none =>
      Qeq_bool (getTotal fallCart) 0 && Qeq_bool (getTotal winterCart) 0 = true
  | _ => False
  end.
Proof.
  unfold getBenefits. cbn [bAnnual].
  generalize (negb (someReciprocal fallCart) && negb (someReciprocal winterCart)).
  generalize (hasItem basicIce fallCart || (0 <? getLeagueCount fallCart)%nat
              || (hasItem basicIce winterCart
                  || (0 <? getLeagueCount winterCart)%nat)).
  generalize (Qeq_bool (getTotal fallCart) 0 && Qeq_bool (getTotal winterCart) 0).
  generalize (hasItem social fallCart || hasItem social winterCart
              || hasItem membership fallCart || hasItem membership winterCart).
  intros s z i r.
  destruct (hasItem membership fallCart || hasItem membership winterCart),
    s, z, i, r, x; cbn [pushIf orb andb app]; simpl;
    intuition (discriminate || congruence).
Qed.

(** X16: voting comes with a membership in either season.  The dues are paid
    for a member unless the reciprocal discount is selected and the season
    that carries the membership has a league: a reciprocal member without a
    league gets no discount and keeps the dues benefit. *)
Theorem membership_benefits (params : GetCostParams) :
  let c := getCarts params in
  let a := bAnnual (getBenefits (fall c) (winter c)) in
  let member := wantsFall params || wantsWinter params in
  let leagueSeason :=
    if wantsFall params then fallRegularLeagues params
    else winterRegularLeagues params in
  (In voting a <-> member = true)
  /\ (In dues a <->
      member = true
      /\ isDiscount (discount params) reciprocal && (0 <? leagueSeason)%Z = false).
Proof.
  cbv zeta. rewrite !In_annual.
  rewrite getCarts_closed. unfold someReciprocal, getDiscounts.
  rewrite !hasItem_existsb. cbn [fall winter cartItems cartDiscounts].
  rewrite fall_hasMembership, winter_hasMembership.
  rewrite fall_someReciprocal, winter_someReciprocal.
  unfold winterMembership.
  destruct (wantsFall params), (wantsWinter params),
    (isDiscount (discount params) reciprocal),
    (0 <? fallRegularLeagues params)%Z, (0 <? winterRegularLeagues params)%Z;
    simpl; intuition discriminate.
Qed.

Lemma payable_cart (ks : list ItemType) (ds : list DiscountType) :
  payable ks ds ->
  let c := mkCart (map items ks) (map discounts ds) in
  c = newCart \/ (cartItems c <> [] /\ (0 < getTotal c)%Q).
Proof.
  intros [[-> ->]|[Hk [Hs Hlt]]]; cbv zeta.
  - now left.
  - right. split; [now destruct ks|now apply getTotal_kinds_positive].
Qed.

Lemma positive_true (x : Q) : (0 < x)%Q -> positive x = true.
Proof.
  intros H. unfold positive. apply negb_true_iff.
  destruct (Qle_bool x 0) eqn:E; [|reflexivity].
  apply Qle_bool_iff in E. exfalso. apply (Qlt_not_le _ _ H E).
Qed.

Lemma not_zero (x : Q) : (0 < x)%Q -> Qeq_bool x 0 = false.
Proof.
  intros H. destruct (Qeq_bool x 0) eqn:E; [|reflexivity].
  apply Qeq_bool_eq in E. rewrite E in H. discriminate H.
Qed.

(** X17: the placeholder [none] is shown exactly when both carts of the
    selection are empty, and then it is the only benefit shown. *)
Theorem none_iff_empty (params : GetCostParams) :
  let c := getCarts params in
  let b := getBenefits (fall c) (winter c) in
  (In none (bAnnual b) <-> cartItems (fall c) = [] /\ cartItems (winter c) = [])
  /\ (In none (bAnnual b) -> b = mkBenefits [] [] [none]).
Proof.
  cbv zeta. rewrite In_annual, getCarts_closed. cbn [fall winter].
  destruct (payable_cart _ _ (fall_payable params)) as [-> | [Hf Hfp]];
    destruct (payable_cart _ _ (winter_payable params)) as [-> | [Hw Hwp]].
  - split; [split; [now split|reflexivity]|reflexivity].
  - rewrite (not_zero _ Hwp), andb_false_r.
    split; [split; [discriminate|tauto]|discriminate].
  - rewrite (not_zero _ Hfp).
    split; [split; [discriminate|tauto]|discriminate].
  - rewrite (not_zero _ Hfp).
    split; [split; [discriminate|tauto]|discriminate].
Qed.

(** X18: the note beside the grand total: two payments when both carts of the
    selection have items, one payment when one of them has, nothing when
    both are empty. *)
Theorem priceText_payments (params : GetCostParams) :
  let c := getCarts params in
  priceText (getTotal (fall c)) (getTotal (winter c))
  = match cartItems (fall c), cartItems (winter c) with
    | [], [] => ""
    | _ :: _, _ :: _ => " - due in two separate payments shown below"
    | _, _ => " - due in one payment shown below"
    end.
Proof.
  cbv zeta. rewrite getCarts_closed. cbn [fall winter]. unfold priceText.
  destruct (payable_cart _ _ (fall_payable params)) as [-> | [Hf Hfp]];
    destruct (payable_cart _ _ (winter_payable params)) as [-> | [Hw Hwp]];
    rewrite ?(positive_true _ Hfp), ?(positive_true _ Hwp).
  - reflexivity.
  - cbn [cartItems] in *. now destruct (map items (winterKinds params)).
  - cbn [cartItems] in *. rewrite orb_true_r.
    now destruct (map items (fallKinds params)).
  - cbn [cartItems] in *.
    now destruct (map items (fallKinds params)),
      (map items (winterKinds params)).
Qed.

(** ** The selection under clicks *)

Lemma getSliderHandler_cases (type : SliderType) (season : Season)
    (buttonText : string) (p : GetCostParams) :
  let q := getSliderHandler type season buttonText p in
  q = p
  \/ (exists so, q = setRegularLeagues season 0
                       (setSpareOnly season false (setSocial season so p)))
  \/ q = setRegularLeagues season 0 (setSpareOnly season true p)
  \/ (exists n, (1 <= n <= 5)%Z /\ q = setRegularLeagues season n p)
  \/ (exists d, d <> Some winterOnly /\ q = setDiscount d p).
Proof.
  cbv zeta. unfold getSliderHandler.
  repeat match goal with
         | |- context [String.eqb buttonText ?s] =>
             destruct (String.eqb buttonText s)
         end;
    try destruct type; auto;
    try (right; left; eexists; reflexivity);
    try (right; right; right; left; eexists; split; [|reflexivity]; lia);
    right; right; right; right; eexists; (split; [|reflexivity]); discriminate.
Qed.

Lemma afterClicks_snoc (cs : list Click) (c : Click) :
  afterClicks (cs ++ [c])
  = getSliderHandler (clickType c) (clickSeason c) (clickText c) (afterClicks cs).
Proof. unfold afterClicks. now rewrite fold_left_app. Qed.

(** X19: whatever is clicked, in whatever order: the day-league flags of the
    selection stay off (the button for day leagues sets the sparing flag),
    the league counts stay between 0 and 5, and the discount is never the
    winter-only one. *)
Theorem clicks_invariant (cs : list Click) :
  let p := afterClicks cs in
  fallDayLeagues p = false
  /\ winterDayLeagues p = false
  /\ (0 <= fallRegularLeagues p <= 5)%Z
  /\ (0 <= winterRegularLeagues p <= 5)%Z
  /\ discount p <> Some winterOnly.
Proof.
  cbv zeta.
  induction cs as [|c cs IH] using rev_ind.
  - repeat split; (discriminate || reflexivity).
  - rewrite afterClicks_snoc.
    destruct IH as [H1 [H2 [H3 [H4 H5]]]].
    destruct (getSliderHandler_cases (clickType c) (clickSeason c) (clickText c)
                (afterClicks cs))
      as [-> | [[so ->] | [-> | [[n [Hn ->]] | [d [Hd ->]]]]]];
      try destruct (clickSeason c); cbn; repeat split; auto; lia.
Qed.

(** X22: when the handler of the fall ice slider (which has no additional
    action) runs for a league button, the selection its switch leaves gives
    a fall cart with the membership and that many leagues, whatever the
    selection was before. *)
Theorem league_buttons (p : GetCostParams) :
  map (fun text =>
         let c := getCarts (getSliderHandler tIce sFall text p) in
         (hasItem membership (fall c), getLeagueCount (fall c)))
      ["1 league"; "2 leagues"; "3 leagues"; "4 leagues"; "5 leagues"]
  = [(true, 1); (true, 2); (true, 3); (true, 4); (true, 5)]%nat.
Proof.
  cbn [map]. rewrite !getCarts_closed. cbn [fall].
  unfold getLeagueCount. rewrite !hasItem_existsb. cbn [cartItems].
  rewrite !fall_hasMembership, !fall_leagueCount.
  unfold wantsFall, fallCount.
  cbn. now rewrite !orb_true_r.
Qed.

(** ** The texts of the benefits *)

Lemma replace_after_digits (d : Decimal.uint) (rest rep : string) :
  String_replace (NilEmpty.string_of_uint d ++ rest)%string "<PLURAL_LEAGUE>" rep
  = (NilEmpty.string_of_uint d
     ++ String_replace rest "<PLURAL_LEAGUE>" rep)%string.
Proof.
  induction d as [|d IH|d IH|d IH|d IH|d IH|d IH|d IH|d IH|d IH|d IH];
    [reflexivity|..]; cbn [NilEmpty.string_of_uint String.append];
    cbn [String_replace String.prefix]; simpl; now rewrite IH.
Qed.

Lemma replace_after_count (n : nat) (rest rep : string) :
  String_replace (String_of_count n ++ rest)%string "<PLURAL_LEAGUE>" rep
  = (String_of_count n ++ String_replace rest "<PLURAL_LEAGUE>" rep)%string.
Proof.
  unfold String_of_count, NilZero.string_of_uint.
  destruct (Nat.to_uint n) eqn:E; try apply replace_after_digits.
  reflexivity.
Qed.

(** X23: the text shown for a benefit: the text of the table as it is, except
    for [leagues], where the league count of the cart and the singular or
    the plural take the place of the two placeholders. *)
Theorem benefitText_spec (b : Benefit) (leagueCount : nat) :
  benefitText b leagueCount
  = match b with
    | leagues =>
        ("Participate in " ++ String_of_count leagueCount
         ++ (if (leagueCount =? 1)%nat then " league" else " leagues"))%string
    | _ => benefits b
    end.
Proof.
  unfold benefitText.
  destruct b; try reflexivity.
  change (String_replace (benefits leagues) "<NUM>" (String_of_count leagueCount))
    with ("Participate in "
          ++ (String_of_count leagueCount ++ " <PLURAL_LEAGUE>"))%string.
  cbn [String.append String_replace String.prefix]. simpl.
  rewrite replace_after_count.
  now destruct (leagueCount =? 1)%nat.
Qed.
